(** * BotTranslator: the user-settings store and the preferences facade

    A shallow embedding of [database.py], [user_preferences.py], the
    catalog of [translator.py] and the schema of [models.py], followed by
    the properties of the settings layer.

    Python code that touches the database or the logger is written in a
    small state-and-exception monad over a [World] (the [user_settings]
    table and the log).  Dictionaries are [gmap string string]. *)

From Stdlib Require Import ZArith String Ascii List Bool DecimalString QArith Lia.
From stdpp Require Import gmap strings.

Local Open Scope string_scope.
Local Open Scope Z_scope.

(** ** Python runtime *)

(** The exception classes that the modelled code can see.  All of them
    derive from [Exception]; [SQLAlchemyError] also stands for its
    subclasses (such as the integrity error of a unique constraint). *)
Inductive Exception : Type :=
  | SQLAlchemyError
  | ValueError
  | TypeError
  | OverflowError.

Definition is_SQLAlchemyError (e : Exception) : bool :=
  match e with SQLAlchemyError => true | _ => false end.

(** [except (ValueError, TypeError)] *)
Definition is_ValueError_or_TypeError (e : Exception) : bool :=
  match e with ValueError | TypeError => true | _ => false end.

(** [except Exception] *)
Definition is_Exception (_ : Exception) : bool := true.

(** What the specification calls a validation error: the exceptions that
    [float(...)] raises on an argument that is not a number. *)
Definition ValidationError (e : Exception) : Prop :=
  e = ValueError \/ e = TypeError.

Inductive outcome (A : Type) : Type :=
  | Returns (a : A)
  | Raises (e : Exception).
Arguments Returns {A} a.
Arguments Raises {A} e.

(** The built-ins of the interpreter that the code calls and that are kept
    abstract: double-precision numbers with the two conversions behind
    [float(x)], the literal [1.0], and [str.upper]. *)
Class Builtins : Type := {
  float : Type;
  float_of_str : string -> option float;   (* [None]: ValueError *)
  float_of_int : Z -> option float;        (* [None]: OverflowError *)
  float_1_0 : float;
  upper : string -> string
}.

(** [x] after [x = d.get(k)] followed by [if not x: x = alt]; equally
    [x if x else alt].  [None] and the empty string are the falsy values. *)
Definition if_not (x : option string) (alt : string) : string :=
  match x with
  | Some s => if String.eqb s EmptyString then alt else s
  | None => alt
  end.

Inductive UserId : Type :=
  | IdInt (n : Z)
  | IdStr (s : string).

(** [str(user_id)] *)
Definition py_str (user_id : UserId) : string :=
  match user_id with
  | IdInt n => NilZero.string_of_int (Z.to_int n)
  | IdStr s => s
  end.

Inductive Level : Type := INFO | ERROR.

(** A log record: its level, the text of the format string as written in
    the source, and the exception that is interpolated, if any. *)
Record LogRecord : Type := mkLog {
  levelname : Level;
  msg : string;
  exc : option Exception
}.

(** ** translator.py *)

Module translator.

Definition get_available_languages : gmap string string :=
  list_to_map
    [ ("en", "English"); ("es", "Spanish"); ("fr", "French");
      ("de", "German"); ("it", "Italian"); ("pt", "Portuguese");
      ("ru", "Russian"); ("zh-CN", "Chinese (Simplified)");
      ("ja", "Japanese"); ("ko", "Korean"); ("ar", "Arabic");
      ("hi", "Hindi"); ("tr", "Turkish"); ("nl", "Dutch");
      ("sv", "Swedish"); ("fi", "Finnish"); ("pl", "Polish");
      ("uk", "Ukrainian") ].

End translator.

Section Values.

Context {py : Builtins}.

(** Values that a Python variable holding a speed may take. *)
Inductive PyVal : Type :=
  | PyNone
  | PyInt (n : Z)
  | PyFloat (x : float)
  | PyStr (s : string).

(** [float(v)] *)
Definition py_float (v : PyVal) : outcome float :=
  match v with
  | PyNone => Raises TypeError
  | PyInt n =>
      match float_of_int n with
      | Some x => Returns x
      | None => Raises OverflowError
      end
  | PyFloat x => Returns x
  | PyStr s =>
      match float_of_str s with
      | Some x => Returns x
      | None => Raises ValueError
      end
  end.

Definition is_float (v : PyVal) : bool :=
  match v with PyFloat _ => true | _ => false end.

End Values.

(** ** models.py *)

Module models.

Section UserSettings.

Context {py : Builtins}.

(** A [UserSettings] object.  [id] is [None] until the row is flushed. *)
Record UserSettings : Type := mkUserSettings {
  id : option Z;
  user_id : string;
  source_language : string;
  language : string;
  audio_language : string;
  voice_type : string;
  speed : PyVal;
  source_language_name : string;
  language_name : string;
  audio_language_name : string;
  voice_type_name : string
}.

Definition set_language (v : string) (s : UserSettings) : UserSettings :=
  mkUserSettings (id s) (user_id s) (source_language s) v (audio_language s)
    (voice_type s) (speed s) (source_language_name s) (language_name s)
    (audio_language_name s) (voice_type_name s).

Definition set_language_name (v : string) (s : UserSettings) : UserSettings :=
  mkUserSettings (id s) (user_id s) (source_language s) (language s)
    (audio_language s) (voice_type s) (speed s) (source_language_name s) v
    (audio_language_name s) (voice_type_name s).

Definition set_audio_language (v : string) (s : UserSettings) : UserSettings :=
  mkUserSettings (id s) (user_id s) (source_language s) (language s) v
    (voice_type s) (speed s) (source_language_name s) (language_name s)
    (audio_language_name s) (voice_type_name s).

Definition set_audio_language_name (v : string) (s : UserSettings) : UserSettings :=
  mkUserSettings (id s) (user_id s) (source_language s) (language s)
    (audio_language s) (voice_type s) (speed s) (source_language_name s)
    (language_name s) v (voice_type_name s).

Definition set_voice_type (v : string) (s : UserSettings) : UserSettings :=
  mkUserSettings (id s) (user_id s) (source_language s) (language s)
    (audio_language s) v (speed s) (source_language_name s) (language_name s)
    (audio_language_name s) (voice_type_name s).

Definition set_voice_type_name (v : string) (s : UserSettings) : UserSettings :=
  mkUserSettings (id s) (user_id s) (source_language s) (language s)
    (audio_language s) (voice_type s) (speed s) (source_language_name s)
    (language_name s) (audio_language_name s) v.

Definition set_source_language (v : string) (s : UserSettings) : UserSettings :=
  mkUserSettings (id s) (user_id s) v (language s) (audio_language s)
    (voice_type s) (speed s) (source_language_name s) (language_name s)
    (audio_language_name s) (voice_type_name s).

Definition set_source_language_name (v : string) (s : UserSettings) : UserSettings :=
  mkUserSettings (id s) (user_id s) (source_language s) (language s)
    (audio_language s) (voice_type s) (speed s) v (language_name s)
    (audio_language_name s) (voice_type_name s).

Definition set_speed (v : PyVal) (s : UserSettings) : UserSettings :=
  mkUserSettings (id s) (user_id s) (source_language s) (language s)
    (audio_language s) (voice_type s) v (source_language_name s)
    (language_name s) (audio_language_name s) (voice_type_name s).

(** The read-only property [get_user_id] of the class. *)
Definition get_user_id (s : UserSettings) : string := user_id s.

End UserSettings.

End models.

Import models.

Section Program.

Context {py : Builtins}.

(** ** The world: the [user_settings] table and the log *)

Record World : Type := mkWorld {
  db : list UserSettings;
  log : list LogRecord
}.

(** ** The monad of effectful Python code *)

Definition M (A : Type) : Type := World -> World * outcome A.

Definition ret {A : Type} (a : A) : M A := fun w => (w, Returns a).

Definition raise {A : Type} (e : Exception) : M A := fun w => (w, Raises e).

Definition bind {A B : Type} (m : M A) (k : A -> M B) : M B :=
  fun w =>
    match m w with
    | (w', Returns a) => k a w'
    | (w', Raises e) => (w', Raises e)
    end.

(** A pure computation that may raise. *)
Definition lift {A : Type} (o : outcome A) : M A := fun w => (w, o).

(** [try: body / except <classes> as e: handler e] *)
Definition try_except {A : Type} (body : M A) (catches : Exception -> bool)
    (handler : Exception -> M A) : M A :=
  fun w =>
    match body w with
    | (w', Returns a) => (w', Returns a)
    | (w', Raises e) => if catches e then handler e w' else (w', Raises e)
    end.

(** [try: body / finally: fin] *)
Definition try_finally {A : Type} (body : M A) (fin : M unit) : M A :=
  fun w =>
    match body w with
    | (w', r) =>
        match fin w' with
        | (w'', Returns _) => (w'', r)
        | (w'', Raises e) => (w'', Raises e)
        end
    end.

(** [logger.info(...)] and [logger.error(...)] *)
Definition logger_info (m : string) : M unit :=
  fun w => (mkWorld (db w) (log w ++ [mkLog INFO m None]), Returns tt).

Definition logger_error (m : string) (e : Exception) : M unit :=
  fun w => (mkWorld (db w) (log w ++ [mkLog ERROR m (Some e)]), Returns tt).

End Program.

Declare Scope py_scope.
Delimit Scope py_scope with py.
Notation "x <- c1 ;; c2" := (bind c1 (fun x => c2))
  (at level 100, c1 at next level, right associativity) : py_scope.
Notation "c1 ;; c2" := (bind c1 (fun _ => c2))
  (at level 100, right associativity) : py_scope.

Local Open Scope py_scope.

(** ** constants.py

    The module is not part of the sources at hand.  Its two dictionaries
    are parameters of the development; its five defaults follow the
    specification. *)

(** Modelled from the spec: the process-wide default of [source_language]
    in the absent [constants.py] is the auto-detect sentinel. *)
Definition DEFAULT_SOURCE_LANGUAGE : string := "auto".

(** Modelled from the spec: the default target language of the absent
    [constants.py]. *)
Definition DEFAULT_LANGUAGE : string := "ru".

(** Modelled from the spec: the default audio language of the absent
    [constants.py]. *)
Definition DEFAULT_AUDIO_LANGUAGE : string := "ru".

(** Modelled from the spec: the default voice type of the absent
    [constants.py]. *)
Definition DEFAULT_VOICE_TYPE : string := "normal".

(** Modelled from the spec: the default speed [1.0] of the absent
    [constants.py]. *)
Definition DEFAULT_SPEED {py : Builtins} : PyVal := PyFloat float_1_0.

(** ** The database session *)

(** What the storage engine does during one call of a store function:
    whether running the query raises, and whether committing raises. *)
Record Backend : Type := mkBackend {
  query_fails : bool;
  commit_fails : bool
}.

Definition reachable : Backend := mkBackend false false.

Section Session.

Context {py : Builtins}.
Variable env : Backend.

Definition by_user_id (key : string) (r : UserSettings) : bool :=
  String.eqb (user_id r) key.

Definition same_id (r s : UserSettings) : bool :=
  match id r, id s with
  | Some a, Some b => Z.eqb a b
  | _, _ => false
  end.

(** The value the autoincrement primary key takes for the next row. *)
Definition fresh_id (rows : list UserSettings) : Z :=
  1 + fold_right Z.max 0 (map (fun r => default 0 (id r)) rows).

Definition set_id (v : option Z) (s : UserSettings) : UserSettings :=
  mkUserSettings v (user_id s) (source_language s) (language s)
    (audio_language s) (voice_type s) (speed s) (source_language_name s)
    (language_name s) (audio_language_name s) (voice_type_name s).

(** [session.query(UserSettings).filter_by(user_id=key).first()] *)
Definition query_first (key : string) : M (option UserSettings) :=
  fun w =>
    if query_fails env then (w, Raises SQLAlchemyError)
    else (w, Returns (List.find (by_user_id key) (db w))).

(** [session.add(settings)] followed by [session.commit()]: the row gets
    its primary key and joins the table, unless the engine fails or the
    unique constraint on [user_id] rejects it. *)
Definition add_commit (settings : UserSettings) : M UserSettings :=
  fun w =>
    if commit_fails env then (w, Raises SQLAlchemyError)
    else if existsb (by_user_id (user_id settings)) (db w)
    then (w, Raises SQLAlchemyError)
    else
      let settings' := set_id (Some (fresh_id (db w))) settings in
      (mkWorld (db w ++ [settings']) (log w), Returns settings').

(** [session.commit()] with attribute writes pending on the loaded object
    [settings]: the row with its primary key takes the new values. *)
Definition commit (settings : UserSettings) : M unit :=
  fun w =>
    if commit_fails env then (w, Raises SQLAlchemyError)
    else
      (mkWorld (map (fun r => if same_id r settings then settings else r) (db w))
         (log w),
       Returns tt).

(** [session.rollback()] discards what is pending; nothing of it has
    reached the table. *)
Definition rollback : M unit := ret tt.

(** [session.close()] *)
Definition close : M unit := ret tt.

End Session.

(** ** database.py

    The three dictionaries that the module imports are variables of the
    section, so that statements can range over every table.  In the
    program the first one is [translator.get_available_languages]; the
    other two come from [constants.py]. *)

Section database.

Context {py : Builtins}.
Variable get_available_languages : gmap string string.
Variable AVAILABLE_AUDIO_LANGUAGES : gmap string string.
Variable VOICE_TYPES : gmap string string.
Variable env : Backend.

Definition get_or_create_user_settings (user_id : UserId) : M UserSettings :=
  try_finally
    (try_except
       (settings <- query_first env (py_str user_id) ;;
        settings <-
          match settings with
          | Some settings => ret settings
          | None =>
              let language_name :=
                if_not (get_available_languages !! DEFAULT_LANGUAGE)
                  (upper DEFAULT_LANGUAGE) in
              let source_language_name :=
                if String.eqb DEFAULT_SOURCE_LANGUAGE "auto"
                then "Автоопределение"
                else if_not (get_available_languages !! DEFAULT_SOURCE_LANGUAGE)
                       (upper DEFAULT_SOURCE_LANGUAGE) in
              let audio_language_name :=
                if_not (AVAILABLE_AUDIO_LANGUAGES !! DEFAULT_AUDIO_LANGUAGE)
                  (upper DEFAULT_AUDIO_LANGUAGE) in
              let voice_type_name :=
                if_not (VOICE_TYPES !! DEFAULT_VOICE_TYPE)
                  (upper DEFAULT_VOICE_TYPE) in
              let settings :=
                mkUserSettings None (py_str user_id) DEFAULT_SOURCE_LANGUAGE
                  DEFAULT_LANGUAGE DEFAULT_AUDIO_LANGUAGE DEFAULT_VOICE_TYPE
                  DEFAULT_SPEED source_language_name language_name
                  audio_language_name voice_type_name in
              settings <- add_commit env settings ;;
              logger_info "Created new settings for user {user_id}" ;;
              ret settings
          end ;;
        let user_settings :=
          mkUserSettings (id settings) (get_user_id settings)
            (source_language settings) (language settings)
            (audio_language settings) (voice_type settings) (speed settings)
            (source_language_name settings) (language_name settings)
            (audio_language_name settings) (voice_type_name settings) in
        ret user_settings)
       is_SQLAlchemyError
       (fun e =>
          rollback ;;
          logger_error "Database error while getting user settings: {e}" e ;;
          raise e))
    close.

Definition update_user_language (user_id : UserId) (language_code : string)
    : M unit :=
  try_finally
    (try_except
       (settings <- query_first env (py_str user_id) ;;
        match settings with
        | Some settings =>
            let settings := set_language language_code settings in
            let language_name := get_available_languages !! language_code in
            let settings :=
              set_language_name (if_not language_name (upper language_code))
                settings in
            commit env settings ;;
            logger_info "Updated language for user {user_id} to {language_code}"
        | None => ret tt
        end)
       is_SQLAlchemyError
       (fun e =>
          rollback ;;
          logger_error "Database error while updating user language: {e}" e ;;
          raise e))
    close.

Definition update_user_audio_language (user_id : UserId)
    (language_code : string) : M unit :=
  try_finally
    (try_except
       (settings <- query_first env (py_str user_id) ;;
        match settings with
        | Some settings =>
            let settings := set_audio_language language_code settings in
            let audio_language_name :=
              AVAILABLE_AUDIO_LANGUAGES !! language_code in
            let settings :=
              set_audio_language_name
                (if_not audio_language_name (upper language_code)) settings in
            commit env settings ;;
            logger_info
              "Updated audio language for user {user_id} to {language_code}"
        | None => ret tt
        end)
       is_SQLAlchemyError
       (fun e =>
          rollback ;;
          logger_error
            "Database error while updating user audio language: {e}" e ;;
          raise e))
    close.

Definition update_user_voice_type (user_id : UserId) (voice_type : string)
    : M unit :=
  try_finally
    (try_except
       (settings <- query_first env (py_str user_id) ;;
        match settings with
        | Some settings =>
            let settings := set_voice_type voice_type settings in
            let voice_type_name := VOICE_TYPES !! voice_type in
            let settings :=
              set_voice_type_name (if_not voice_type_name (upper voice_type))
                settings in
            commit env settings ;;
            logger_info "Updated voice type for user {user_id} to {voice_type}"
        | None => ret tt
        end)
       is_SQLAlchemyError
       (fun e =>
          rollback ;;
          logger_error "Database error while updating user voice type: {e}" e ;;
          raise e))
    close.

Definition update_user_source_language (user_id : UserId)
    (language_code : string) : M unit :=
  try_finally
    (try_except
       (settings <- query_first env (py_str user_id) ;;
        match settings with
        | Some settings =>
            let settings := set_source_language language_code settings in
            let source_language_name :=
              if String.eqb language_code "auto"
              then "Автоопределение"
              else if_not (get_available_languages !! language_code)
                     (upper language_code) in
            let settings :=
              set_source_language_name source_language_name settings in
            commit env settings ;;
            logger_info
              "Updated source language for user {user_id} to {language_code}"
        | None => ret tt
        end)
       is_SQLAlchemyError
       (fun e =>
          rollback ;;
          logger_error
            "Database error while updating user source language: {e}" e ;;
          raise e))
    close.

Definition update_user_speed (user_id : UserId) (speed : PyVal) : M unit :=
  try_finally
    (try_except
       (settings <- query_first env (py_str user_id) ;;
        match settings with
        | Some settings =>
            speed_float <- lift (py_float speed) ;;
            let settings := set_speed (PyFloat speed_float) settings in
            commit env settings ;;
            logger_info "Updated speed for user {user_id} to {speed}"
        | None => ret tt
        end)
       is_SQLAlchemyError
       (fun e =>
          rollback ;;
          logger_error "Database error while updating user speed: {e}" e ;;
          raise e))
    close.

End database.

(** ** user_preferences.py *)

Module user_preferences.

Section UserPreferences.

Context {py : Builtins}.
Variable get_available_languages : gmap string string.
Variable AVAILABLE_AUDIO_LANGUAGES : gmap string string.
Variable VOICE_TYPES : gmap string string.
Variable env : Backend.

(** The attributes of a [UserPreferences] object. *)
Record UserPreferences : Type := mkUserPreferences {
  user_id : UserId;
  source_language : string;
  language : string;
  audio_language : string;
  speed : PyVal;
  voice_type : string;
  source_language_name : string;
  language_name : string;
  audio_language_name : string;
  voice_type_name : string
}.

Definition set_language (v : string) (self : UserPreferences) : UserPreferences :=
  mkUserPreferences (user_id self) (source_language self) v
    (audio_language self) (speed self) (voice_type self)
    (source_language_name self) (language_name self)
    (audio_language_name self) (voice_type_name self).

Definition set_language_name (v : string) (self : UserPreferences)
    : UserPreferences :=
  mkUserPreferences (user_id self) (source_language self) (language self)
    (audio_language self) (speed self) (voice_type self)
    (source_language_name self) v (audio_language_name self)
    (voice_type_name self).

Definition set_audio_language (v : string) (self : UserPreferences)
    : UserPreferences :=
  mkUserPreferences (user_id self) (source_language self) (language self) v
    (speed self) (voice_type self) (source_language_name self)
    (language_name self) (audio_language_name self) (voice_type_name self).

Definition set_audio_language_name (v : string) (self : UserPreferences)
    : UserPreferences :=
  mkUserPreferences (user_id self) (source_language self) (language self)
    (audio_language self) (speed self) (voice_type self)
    (source_language_name self) (language_name self) v (voice_type_name self).

Definition set_speed (v : PyVal) (self : UserPreferences) : UserPreferences :=
  mkUserPreferences (user_id self) (source_language self) (language self)
    (audio_language self) v (voice_type self) (source_language_name self)
    (language_name self) (audio_language_name self) (voice_type_name self).

Definition set_source_language (v : string) (self : UserPreferences)
    : UserPreferences :=
  mkUserPreferences (user_id self) v (language self) (audio_language self)
    (speed self) (voice_type self) (source_language_name self)
    (language_name self) (audio_language_name self) (voice_type_name self).

Definition set_source_language_name (v : string) (self : UserPreferences)
    : UserPreferences :=
  mkUserPreferences (user_id self) (source_language self) (language self)
    (audio_language self) (speed self) (voice_type self) v
    (language_name self) (audio_language_name self) (voice_type_name self).

Definition set_voice_type (v : string) (self : UserPreferences)
    : UserPreferences :=
  mkUserPreferences (user_id self) (source_language self) (language self)
    (audio_language self) (speed self) v (source_language_name self)
    (language_name self) (audio_language_name self) (voice_type_name self).

Definition set_voice_type_name (v : string) (self : UserPreferences)
    : UserPreferences :=
  mkUserPreferences (user_id self) (source_language self) (language self)
    (audio_language self) (speed self) (voice_type self)
    (source_language_name self) (language_name self)
    (audio_language_name self) v.

(** The constructor.  The attributes are assigned one by one in the
    source; each branch assigns all of them (apart from [user_id], set
    first), so each branch is written as one record. *)
Definition __init__ (user_id : UserId) : M UserPreferences :=
  try_except
    (settings <-
       get_or_create_user_settings get_available_languages
         AVAILABLE_AUDIO_LANGUAGES VOICE_TYPES env user_id ;;
     speed <-
       try_except
         (speed_float <- lift (py_float (models.speed settings)) ;;
          ret (PyFloat speed_float))
         is_ValueError_or_TypeError
         (fun _ => ret DEFAULT_SPEED) ;;
     logger_info "Loaded preferences for user {user_id} from database" ;;
     ret
       (mkUserPreferences user_id (models.source_language settings)
          (models.language settings) (models.audio_language settings) speed
          (models.voice_type settings) (models.source_language_name settings)
          (models.language_name settings)
          (models.audio_language_name settings)
          (models.voice_type_name settings)))
    is_Exception
    (fun e =>
       logger_error
         "Failed to load preferences from database for user {user_id}: {e}" e ;;
       let source_language_name :=
         if String.eqb DEFAULT_SOURCE_LANGUAGE "auto"
         then "Автоопределение"
         else if_not (get_available_languages !! DEFAULT_SOURCE_LANGUAGE)
                (upper DEFAULT_SOURCE_LANGUAGE) in
       let language_name :=
         if_not (get_available_languages !! DEFAULT_LANGUAGE)
           (upper DEFAULT_LANGUAGE) in
       let audio_language_name :=
         if_not (AVAILABLE_AUDIO_LANGUAGES !! DEFAULT_AUDIO_LANGUAGE)
           (upper DEFAULT_AUDIO_LANGUAGE) in
       let voice_type_name :=
         if_not (VOICE_TYPES !! DEFAULT_VOICE_TYPE) (upper DEFAULT_VOICE_TYPE) in
       ret
         (mkUserPreferences user_id DEFAULT_SOURCE_LANGUAGE DEFAULT_LANGUAGE
            DEFAULT_AUDIO_LANGUAGE DEFAULT_SPEED DEFAULT_VOICE_TYPE
            source_language_name language_name audio_language_name
            voice_type_name)).

(** The update methods mutate [self]; here each returns the object as it
    is when the method returns. *)
Definition update_language (self : UserPreferences) (language_code : string)
    : M UserPreferences :=
  try_except
    (update_user_language get_available_languages env (user_id self)
       language_code ;;
     let self := set_language language_code self in
     let language_name := get_available_languages !! language_code in
     let self :=
       set_language_name (if_not language_name (upper language_code)) self in
     logger_info "Updated language for user {self.user_id} to {language_code}" ;;
     ret self)
    is_Exception
    (fun e =>
       logger_error "Failed to update language for user {self.user_id}: {e}" e ;;
       ret self).

Definition update_audio_language (self : UserPreferences)
    (language_code : string) : M UserPreferences :=
  try_except
    (update_user_audio_language AVAILABLE_AUDIO_LANGUAGES env (user_id self)
       language_code ;;
     let self := set_audio_language language_code self in
     let audio_language_name := AVAILABLE_AUDIO_LANGUAGES !! language_code in
     let self :=
       set_audio_language_name
         (if_not audio_language_name (upper language_code)) self in
     logger_info
       "Updated audio language for user {self.user_id} to {language_code}" ;;
     ret self)
    is_Exception
    (fun e =>
       logger_error
         "Failed to update audio language for user {self.user_id}: {e}" e ;;
       ret self).

Definition update_speed (self : UserPreferences) (speed : PyVal)
    : M UserPreferences :=
  try_except
    (speed_float <- lift (py_float speed) ;;
     update_user_speed env (user_id self) (PyFloat speed_float) ;;
     let self := set_speed (PyFloat speed_float) self in
     logger_info "Updated speed for user {self.user_id} to {speed_float}" ;;
     ret self)
    is_Exception
    (fun e =>
       logger_error "Failed to update speed for user {self.user_id}: {e}" e ;;
       ret self).

Definition update_source_language (self : UserPreferences)
    (language_code : string) : M UserPreferences :=
  try_except
    (update_user_source_language get_available_languages env (user_id self)
       language_code ;;
     let self := set_source_language language_code self in
     let self :=
       if String.eqb language_code "auto"
       then set_source_language_name "Автоопределение" self
       else
         let language_name := get_available_languages !! language_code in
         set_source_language_name (if_not language_name (upper language_code))
           self in
     logger_info
       "Updated source language for user {self.user_id} to {language_code}" ;;
     ret self)
    is_Exception
    (fun e =>
       logger_error
         "Failed to update source language for user {self.user_id}: {e}" e ;;
       ret self).

Definition update_voice_type (self : UserPreferences) (voice_type : string)
    : M UserPreferences :=
  try_except
    (update_user_voice_type VOICE_TYPES env (user_id self) voice_type ;;
     let self := set_voice_type voice_type self in
     let self :=
       set_voice_type_name (default "Unknown" (VOICE_TYPES !! voice_type))
         self in
     logger_info "Updated voice type for user {self.user_id} to {voice_type}" ;;
     ret self)
    is_Exception
    (fun e =>
       logger_error "Failed to update voice type for user {self.user_id}: {e}" e ;;
       ret self).

End UserPreferences.

End user_preferences.

(** ** A concrete runtime

    An instance of [Builtins] for evaluating the code on examples: numbers
    are rationals, [float] reads plain decimal literals (an optional sign,
    digits, an optional fraction), integers of fewer than 1025 binary
    digits convert, and [upper] maps the ASCII letters. *)

Module runtime.

Definition digit_of (c : ascii) : option Z :=
  let n := Z.of_nat (nat_of_ascii c) in
  if (48 <=? n) && (n <=? 57) then Some (n - 48) else None.

(** Reads the leading digits of [s]: their value after [acc], how many
    there are, and the rest of the string. *)
Fixpoint read_digits (s : string) (acc : Z) (count : nat) : Z * nat * string :=
  match s with
  | EmptyString => (acc, count, EmptyString)
  | String c rest =>
      match digit_of c with
      | Some d => read_digits rest (10 * acc + d) (S count)
      | None => (acc, count, s)
      end
  end.

Definition read_unsigned (s : string) : option Q :=
  let '(whole, n, rest) := read_digits s 0 0%nat in
  match rest with
  | EmptyString =>
      match n with O => None | _ => Some (inject_Z whole) end
  | String "."%char frac_digits =>
      let '(num, k, rest') := read_digits frac_digits whole 0%nat in
      match rest' with
      | EmptyString =>
          match (n + k)%nat with
          | O => None
          | _ => Some (Qred (Qmake num (Z.to_pos (10 ^ Z.of_nat k))))
          end
      | _ => None
      end
  | _ => None
  end.

Definition float_of_str (s : string) : option Q :=
  match s with
  | String "-"%char rest => option_map Qopp (read_unsigned rest)
  | String "+"%char rest => read_unsigned rest
  | _ => read_unsigned s
  end.

Definition float_of_int (n : Z) : option Q :=
  if Z.log2 (Z.abs n) <? 1024 then Some (inject_Z n) else None.

Definition upper_char (c : ascii) : ascii :=
  let n := nat_of_ascii c in
  if ((97 <=? n) && (n <=? 122))%nat then ascii_of_nat (n - 32) else c.

Fixpoint upper (s : string) : string :=
  match s with
  | EmptyString => EmptyString
  | String c rest => String (upper_char c) (upper rest)
  end.

Definition builtins : Builtins :=
  Build_Builtins Q float_of_str float_of_int 1%Q upper.

End runtime.

(** ** Example data

    The entries of the two absent dictionaries that the column defaults of
    [models.py] name, and a table without rows. *)

Definition sample_AVAILABLE_AUDIO_LANGUAGES : gmap string string :=
  {[ "ru" := "Русский" ]}.

Definition sample_VOICE_TYPES : gmap string string :=
  {[ "normal" := "Обычный" ]}.

Definition empty_world : @World runtime.builtins := mkWorld [] [].

(** The world after the first lookup of user 42 on an empty table. *)
Definition world_42 : @World runtime.builtins :=
  Eval vm_compute in
    fst (get_or_create_user_settings translator.get_available_languages
           sample_AVAILABLE_AUDIO_LANGUAGES sample_VOICE_TYPES reachable
           (IdStr "42") empty_world).

(** The row of user 42 in [world_42]. *)
Definition row_42 : @UserSettings runtime.builtins :=
  mkUserSettings (Some 1) "42" "auto" "ru" "ru" "normal"
    (PyFloat (py := runtime.builtins) 1%Q) "Автоопределение" "Russian"
    "Русский" "Обычный".

(** The facade of user 42, built on the world where the row exists. *)
Definition prefs_42 : @user_preferences.UserPreferences runtime.builtins :=
  user_preferences.mkUserPreferences (IdStr "42") "auto" "ru" "ru"
    (PyFloat (py := runtime.builtins) 1%Q) "normal" "Автоопределение"
    "Russian" "Русский" "Обычный".

(** A backend whose queries raise. *)
Definition unreachable : Backend := mkBackend true false.

(** ** Invariant of the table *)

(** Every stored row carries its primary key. *)
Definition persisted {py : Builtins} (rows : list UserSettings) : Prop :=
  Forall (fun r => id r <> None) rows.

(** The number of rows of a user. *)
Definition rows_of {py : Builtins} (key : string)
    (rows : list UserSettings) : nat :=
  length (List.filter (by_user_id key) rows).

(** The display-name rule: the name of the table when the code has a
    non-empty one, the upper-cased code when the code is absent or its
    name is empty. *)
Definition name_rule {py : Builtins} (table : gmap string string)
    (code name : string) : Prop :=
  (forall v, table !! code = Some v -> v <> EmptyString -> name = v) /\
  (table !! code = None \/ table !! code = Some EmptyString ->
   name = upper code).

(** A speed argument that is not a number: [None], or a string that
    [float] does not read. *)
Definition non_numeric {py : Builtins} (v : PyVal) : Prop :=
  match v with
  | PyNone => True
  | PyStr s => float_of_str s = None
  | PyInt _ | PyFloat _ => False
  end.

(** The world after a commit that replaces a loaded row, followed by an
    information record in the log. *)
Definition committed {py : Builtins} (w : World) (r' : UserSettings)
    (m : string) : World :=
  mkWorld (map (fun x => if same_id x r' then r' else x) (db w))
    (log w ++ [mkLog INFO m None]).

(** The world after one more record in the log. *)
Definition logged {py : Builtins} (w : World) (l : LogRecord) : World :=
  mkWorld (db w) (log w ++ [l]).

(** ** The five updates behind one interface

    The source has one function per field.  The names below are not in
    the source: they let a statement range over the five store updates
    and the five methods of the facade. *)

Inductive Field : Type :=
  | FSourceLanguage
  | FLanguage
  | FAudioLanguage
  | FVoiceType
  | FSpeed.

Section Dispatch.

Context {py : Builtins}.
Variables L A V : gmap string string.
Variable env : Backend.

Inductive Update : Type :=
  | SetSourceLanguage (code : string)
  | SetLanguage (code : string)
  | SetAudioLanguage (code : string)
  | SetVoiceType (code : string)
  | SetSpeed (v : PyVal).

(** The field an update is for. *)
Definition target (u : Update) : Field :=
  match u with
  | SetSourceLanguage _ => FSourceLanguage
  | SetLanguage _ => FLanguage
  | SetAudioLanguage _ => FAudioLanguage
  | SetVoiceType _ => FVoiceType
  | SetSpeed _ => FSpeed
  end.

(** The store function of an update. *)
Definition store_update (u : Update) (uid : UserId) : M unit :=
  match u with
  | SetSourceLanguage code => update_user_source_language L env uid code
  | SetLanguage code => update_user_language L env uid code
  | SetAudioLanguage code => update_user_audio_language A env uid code
  | SetVoiceType code => update_user_voice_type V env uid code
  | SetSpeed v => update_user_speed env uid v
  end.

(** The method of the facade for an update. *)
Definition facade_update (u : Update)
    (self : user_preferences.UserPreferences)
    : M user_preferences.UserPreferences :=
  match u with
  | SetSourceLanguage code =>
      user_preferences.update_source_language L env self code
  | SetLanguage code => user_preferences.update_language L env self code
  | SetAudioLanguage code =>
      user_preferences.update_audio_language A env self code
  | SetVoiceType code => user_preferences.update_voice_type V env self code
  | SetSpeed v => user_preferences.update_speed env self v
  end.

(** What a row stores under a field: the value and its display name (the
    speed has no name). *)
Definition field_value (f : Field) (r : UserSettings) : PyVal * string :=
  match f with
  | FSourceLanguage => (PyStr (source_language r), source_language_name r)
  | FLanguage => (PyStr (language r), language_name r)
  | FAudioLanguage => (PyStr (audio_language r), audio_language_name r)
  | FVoiceType => (PyStr (voice_type r), voice_type_name r)
  | FSpeed => (speed r, EmptyString)
  end.

(** What the facade holds under a field. *)
Definition facade_value (f : Field)
    (self : user_preferences.UserPreferences) : PyVal * string :=
  match f with
  | FSourceLanguage =>
      (PyStr (user_preferences.source_language self),
       user_preferences.source_language_name self)
  | FLanguage =>
      (PyStr (user_preferences.language self),
       user_preferences.language_name self)
  | FAudioLanguage =>
      (PyStr (user_preferences.audio_language self),
       user_preferences.audio_language_name self)
  | FVoiceType =>
      (PyStr (user_preferences.voice_type self),
       user_preferences.voice_type_name self)
  | FSpeed => (user_preferences.speed self, EmptyString)
  end.

(** The row that a store update commits in place of the loaded row [r];
    none when the speed does not convert. *)
Definition row_after (u : Update) (r : UserSettings) : option UserSettings :=
  match u with
  | SetSourceLanguage code =>
      Some (set_source_language_name
              (if String.eqb code "auto" then "Автоопределение"
               else if_not (L !! code) (upper code))
              (set_source_language code r))
  | SetLanguage code =>
      Some (set_language_name (if_not (L !! code) (upper code))
              (set_language code r))
  | SetAudioLanguage code =>
      Some (set_audio_language_name (if_not (A !! code) (upper code))
              (set_audio_language code r))
  | SetVoiceType code =>
      Some (set_voice_type_name (if_not (V !! code) (upper code))
              (set_voice_type code r))
  | SetSpeed v =>
      match py_float v with
      | Returns x => Some (set_speed (PyFloat x) r)
      | Raises _ => None
      end
  end.

End Dispatch.

(** The constraints of the schema of [models.py] on a table: every row
    has its primary key, primary keys are distinct, and [user_id] is
    unique. *)
Definition schema_ok {py : Builtins} (rows : list UserSettings) : Prop :=
  persisted rows /\
  NoDup (map id rows) /\
  NoDup (map user_id rows).

(** The value an update asks for: the code, or the speed converted by
    [float]; none when the speed does not convert. *)
Definition new_value {py : Builtins} (u : Update) : option PyVal :=
  match u with
  | SetSourceLanguage code | SetLanguage code | SetAudioLanguage code
  | SetVoiceType code => Some (PyStr code)
  | SetSpeed v =>
      match py_float v with
      | Returns x => Some (PyFloat x)
      | Raises _ => None
      end
  end.

(** ** The delegate engines

    [translator.py], [text_to_speech.py], [ocr.py] and the converter of
    [speech_to_text.py] are glue around libraries, the file system and
    one external program.  Every call that leaves the module is an event
    of a trace; what the call answers, and whether it raises, is decided
    by a host that sees the trace so far.  Every handler of these
    modules is [except Exception] or a bare [except], so which exception
    a call raises does not matter. *)

Module host.

Inductive Severity : Type := INFO | WARNING | ERROR.

Section Host.

Context {py : Builtins}.

(** The calls, indexed by the type of their answer. *)
Inductive Call : Type -> Type :=
  (* deep_translator: the constructor, then [translator.translate(text)] *)
  | GoogleTranslator (source target : string) : Call unit
  | translator_translate (source target text : string) : Call string
  (* tempfile: [NamedTemporaryFile(suffix=..., delete=False)] answers the
     [name] of the file; [close()] *)
  | NamedTemporaryFile (suffix : string) : Call string
  | temp_file_close (name : string) : Call unit
  (* pydub *)
  | import_pydub : Call unit
  | AudioSegment_silent (duration : Z) : Call unit
  | silence_export (duration : Z) (path format : string) : Call unit
  | AudioSegment_from_file (path : string) : Call Z
  | audio_export (source path format : string) : Call unit
  | spawn_with_speed (source : string) (frame_rate : Z) (speed : PyVal)
      : Call unit
  | set_frame_rate (source : string) (frame_rate : Z) : Call unit
  (* gtts: the constructor, then [tts.save(path)] *)
  | gTTS (text lang : string) (slow : bool) (tld : string) : Call unit
  | tts_save (path : string) : Call unit
  (* PIL and pytesseract *)
  | Image_open (path : string) : Call unit
  | image_to_string (path : string) : Call string
  (* os and subprocess *)
  | os_remove (path : string) : Call unit
  | subprocess_call (argv : list string) : Call Z.

Inductive Event : Type :=
  | Called {X : Type} (c : Call X)
  | Exists (path : string)
  | Logged (level : Severity) (m : string).

(** A host: the answers to the calls, [os.path.exists], which never
    raises, and [str.strip]. *)
Record Host : Type := mkHost {
  answer : forall X : Type, Call X -> list Event -> outcome X;
  path_exists : string -> list Event -> bool;
  strip : string -> string
}.

Variable h : Host.

Definition H (A : Type) : Type := list Event -> list Event * outcome A.

Definition hret {A : Type} (a : A) : H A := fun tr => (tr, Returns a).

Definition hbind {A B : Type} (m : H A) (k : A -> H B) : H B :=
  fun tr =>
    match m tr with
    | (tr', Returns a) => k a tr'
    | (tr', Raises e) => (tr', Raises e)
    end.

(** [try: body / except Exception as e: handler e] *)
Definition htry {A : Type} (body : H A) (handler : Exception -> H A) : H A :=
  fun tr =>
    match body tr with
    | (tr', Returns a) => (tr', Returns a)
    | (tr', Raises e) => handler e tr'
    end.

Definition call {X : Type} (c : Call X) : H X :=
  fun tr => ((tr ++ [Called c])%list, answer h X c tr).

(** [os.path.exists(path)] *)
Definition os_path_exists (path : string) : H bool :=
  fun tr => ((tr ++ [Exists path])%list, Returns (path_exists h path tr)).

Definition logger (level : Severity) (m : string) : H unit :=
  fun tr => ((tr ++ [Logged level m])%list, Returns tt).

End Host.

End host.

Declare Scope host_scope.
Delimit Scope host_scope with host.
Notation "x <- c1 ;; c2" := (host.hbind c1 (fun x => c2))
  (at level 100, c1 at next level, right associativity) : host_scope.
Notation "c1 ;; c2" := (host.hbind c1 (fun _ => c2))
  (at level 100, right associativity) : host_scope.

(** [x in [a, b, ...]] on strings *)
Definition str_in (x : string) (l : list string) : bool :=
  existsb (String.eqb x) l.

(** *** translator.py: [translate_text] *)

Module translator_text.

Import host.

Section translate.

Context {py : Builtins}.
Variable h : Host.

Local Open Scope host_scope.

Definition translate_text (text target_language source_language : string)
    : H string :=
  if String.eqb text EmptyString || String.eqb target_language EmptyString
  then hret text
  else if negb (String.eqb source_language "auto")
          && String.eqb source_language target_language
  then
    logger INFO
      "Source and target languages are the same ({target_language}), skipping translation" ;;
    hret text
  else
    htry
      (call h (GoogleTranslator source_language target_language) ;;
       translated <-
         call h (translator_translate source_language target_language text) ;;
       logger INFO
         "Translated text from {source_language} to {target_language}" ;;
       hret translated)
      (fun e =>
         logger ERROR "Error translating text: {e}" ;;
         hret text).

End translate.

End translator_text.

(** *** text_to_speech.py *)

Module text_to_speech_py.

Import host.

Section tts.

Context {py : Builtins}.
Variable h : Host.

Local Open Scope host_scope.

Definition text_to_speech (text language voice_type : string) : H string :=
  if String.eqb text EmptyString then
    logger WARNING "Empty text provided for text-to-speech" ;;
    temp_file <- call h (NamedTemporaryFile ".mp3") ;;
    call h (temp_file_close temp_file) ;;
    call h (AudioSegment_silent 500) ;;
    call h (silence_export 500 temp_file "mp3") ;;
    hret temp_file
  else
    htry
      (temp_file <- call h (NamedTemporaryFile ".mp3") ;;
       call h (temp_file_close temp_file) ;;
       logger INFO
         "Converting text to speech in language: {language}, voice type: {voice_type}" ;;
       let slow_speed := false in
       let tld_domain := "com" in
       let '(slow_speed, tld_domain) :=
         if String.eqb voice_type "slow" then (true, tld_domain)
         else if String.eqb voice_type "clear" then
           let tld_domain :=
             if str_in language ["en"; "fr"; "es"; "it"; "pt"]
             then "co.uk" else tld_domain in
           let tld_domain :=
             if String.eqb language "ru" then "ru" else tld_domain in
           (slow_speed, tld_domain)
         else if String.eqb voice_type "emotional" then
           let tld_domain :=
             if str_in language ["es"; "it"; "fr"]
             then "ca" else tld_domain in
           (slow_speed, tld_domain)
         else (slow_speed, tld_domain) in
       let '(slow_speed, tld_domain) :=
         if str_in language ["ja"; "zh-CN"; "ko"] then
           let slow_speed :=
             if str_in voice_type ["slow"; "clear"]
             then true else slow_speed in
           (slow_speed, "com")
         else (slow_speed, tld_domain) in
       call h (gTTS text language slow_speed tld_domain) ;;
       call h (tts_save temp_file) ;;
       hret temp_file)
      (fun e =>
         logger ERROR "Error in text-to-speech conversion: {e}" ;;
         fallback_file <- call h (NamedTemporaryFile ".mp3") ;;
         call h (temp_file_close fallback_file) ;;
         call h (AudioSegment_silent 500) ;;
         call h (silence_export 500 fallback_file "mp3") ;;
         hret fallback_file).


End tts.

End text_to_speech_py.

(** *** ocr.py *)

Module ocr.

Import host.

Section ocr.

Context {py : Builtins}.
Variable h : Host.

Local Open Scope host_scope.

Definition extract_text_from_image (image_path : string) : H string :=
  found <- os_path_exists h image_path ;;
  if negb found then
    logger ERROR "Image file not found: {image_path}" ;;
    hret EmptyString
  else
    htry
      (logger INFO "Opening image: {image_path}" ;;
       call h (Image_open image_path) ;;
       logger INFO "Extracting text from image: {image_path}" ;;
       extracted_text <- call h (image_to_string image_path) ;;
       let extracted_text := strip h extracted_text in
       logger INFO "Extracted {len(extracted_text)} characters from image" ;;
       hret extracted_text)
      (fun e =>
         logger ERROR "Error extracting text from image: {e}" ;;
         hret EmptyString).

End ocr.

End ocr.

(** *** speech_to_text.py: [convert_to_wav]

    [temp_file_name] is [None] until the temporary file exists.  The one
    outer [try] of the source is written as two nested ones, one for each
    value the handler can find in [temp_file_name]; the handler itself
    cannot raise. *)

Module speech_to_text_py.

Import host.

Section wav.

Context {py : Builtins}.
Variable h : Host.

Local Open Scope host_scope.

(** The outer handler, for the value of [temp_file_name] it finds. *)
Definition convert_failed (temp_file_name : option string)
    : H (option string) :=
  logger ERROR "Error converting audio to WAV: {e}" ;;
  match temp_file_name with
  | Some name =>
      (if String.eqb name EmptyString then hret tt
       else
         found <- os_path_exists h name ;;
         if found
         then htry (call h (os_remove name)) (fun _ => hret tt)
         else hret tt) ;;
      hret None
  | None => hret None
  end.

Definition convert_to_wav (input_file : string) : H (option string) :=
  htry
    (call h import_pydub ;;
     temp_file_name <- call h (NamedTemporaryFile ".wav") ;;
     htry
       (call h (temp_file_close temp_file_name) ;;
        htry
          (call h (AudioSegment_from_file input_file) ;;
           call h (audio_export input_file temp_file_name "wav") ;;
           logger INFO "Converted audio to WAV format using pydub" ;;
           hret (Some temp_file_name))
          (fun pydub_err =>
             logger WARNING
               "Failed to convert audio with pydub, trying ffmpeg: {pydub_err}" ;;
             htry
               (call h
                  (subprocess_call
                     ["ffmpeg"; "-i"; input_file; "-acodec"; "pcm_s16le";
                      "-ar"; "16000"; "-ac"; "1"; temp_file_name; "-y"]) ;;
                logger INFO "Converted audio to WAV format using ffmpeg" ;;
                hret (Some temp_file_name))
               (fun ffmpeg_err =>
                  logger ERROR
                    "Failed to convert audio to WAV format with ffmpeg: {ffmpeg_err}" ;;
                  (if String.eqb temp_file_name EmptyString then hret tt
                   else
                     found <- os_path_exists h temp_file_name ;;
                     if found then call h (os_remove temp_file_name)
                     else hret tt) ;;
                  hret None)))
       (fun e => convert_failed (Some temp_file_name)))
    (fun e => convert_failed None).

End wav.

End speech_to_text_py.

(** *** Example hosts and trace predicates *)

Module hosts.

Import host.

(** The name a host gives to the temporary file created after [tr]. *)
Definition temp_name {py : Builtins} (tr : list Event) (suffix : string)
    : string :=
  "/tmp/tmp" ++ NilZero.string_of_int (Z.to_int (Z.of_nat (length tr)))
  ++ suffix.

(** A host on which every call succeeds and every path exists. *)
Definition answer_ok {py : Builtins} (X : Type) (c : Call X)
    (tr : list Event) : outcome X :=
  match c in Call X return outcome X with
  | GoogleTranslator _ _ => Returns tt
  | translator_translate _ target text => Returns (target ++ ":" ++ text)
  | NamedTemporaryFile suffix => Returns (temp_name tr suffix)
  | temp_file_close _ => Returns tt
  | import_pydub => Returns tt
  | AudioSegment_silent _ => Returns tt
  | silence_export _ _ _ => Returns tt
  | AudioSegment_from_file _ => Returns 44100
  | audio_export _ _ _ => Returns tt
  | spawn_with_speed _ _ _ => Returns tt
  | set_frame_rate _ _ => Returns tt
  | gTTS _ _ _ _ => Returns tt
  | tts_save _ => Returns tt
  | Image_open _ => Returns tt
  | image_to_string _ => Returns " text "
  | os_remove _ => Returns tt
  | subprocess_call _ => Returns 0
  end.

Definition ok {py : Builtins} : Host :=
  mkHost answer_ok (fun _ _ => true) (fun s => s).

(** A host without pydub and gTTS, on which temporary files and the
    external program work: [ffmpeg] runs and exits with code 1. *)
Definition answer_bare {py : Builtins} (X : Type) (c : Call X)
    (tr : list Event) : outcome X :=
  match c in Call X return outcome X with
  | NamedTemporaryFile suffix => Returns (temp_name tr suffix)
  | temp_file_close _ => Returns tt
  | import_pydub => Returns tt
  | AudioSegment_silent _ => Returns tt
  | silence_export _ _ _ => Returns tt
  | os_remove _ => Returns tt
  | subprocess_call _ => Returns 1
  | _ => Raises ValueError
  end.

Definition bare {py : Builtins} : Host :=
  mkHost answer_bare (fun _ _ => false) (fun s => s).

End hosts.

Definition is_call {py : Builtins} (e : host.Event) : bool :=
  match e with host.Called _ => true | _ => false end.

(** The events hold no call: only logging and [os.path.exists]. *)
Definition no_calls {py : Builtins} (evs : list host.Event) : Prop :=
  Forall (fun e => is_call e = false) evs.

(** The last event of a trace. *)
Definition last_event {py : Builtins} (evs : list host.Event)
    : option host.Event :=
  List.last (map Some evs) None.

(** The host never raises when making temporary files and silence. *)
Definition silence_works {py : Builtins} (h : host.Host) : Prop :=
  forall tr,
    (forall suffix e,
       host.answer h string (host.NamedTemporaryFile suffix) tr <> Raises e) /\
    (forall name e,
       host.answer h unit (host.temp_file_close name) tr <> Raises e) /\
    (forall d e,
       host.answer h unit (host.AudioSegment_silent d) tr <> Raises e) /\
    (forall d p f e,
       host.answer h unit (host.silence_export d p f) tr <> Raises e).

(** The event is a call of the speech synthesis: building [gTTS] or
    saving its audio. *)
Definition is_synthesis {py : Builtins} (e : host.Event) : bool :=
  match e with
  | host.Called c =>
      match c with
      | host.gTTS _ _ _ _ | host.tts_save _ => true
      | _ => false
      end
  | _ => false
  end.

(** * Properties *)

Ltac unfold_py :=
  unfold try_finally, try_except, bind, ret, raise, lift, query_first,
    commit, add_commit, rollback, close, logger_info, logger_error.

Ltac unfold_py_in H :=
  unfold try_finally, try_except, bind, ret, raise, lift, query_first,
    commit, add_commit, rollback, close, logger_info, logger_error in H.

Section StoreLemmas.

Context {py : Builtins}.
Variables L A V : gmap string string.
Variable env : Backend.

Lemma if_not_name_rule (table : gmap string string) (code : string) :
  name_rule table code (if_not (table !! code) (upper code)).
Proof.
  unfold name_rule, if_not. split.
  - intros v Hv Hne. rewrite Hv.
    destruct (String.eqb_spec v EmptyString); congruence.
  - intros [Hn | He]; rewrite ?Hn, ?He; reflexivity.
Qed.

(** The row an update leaves in place of the one it loaded. *)
Lemma find_commit (key : string) (r r' : UserSettings) (rows : list UserSettings) :
  persisted rows ->
  List.find (by_user_id key) rows = Some r ->
  id r' = id r ->
  user_id r' = key ->
  List.find (by_user_id key)
    (map (fun x => if same_id x r' then r' else x) rows) = Some r'.
Proof.
  intros Hp Hf Hid Hk.
  assert (Hr' : by_user_id key r' = true)
    by (unfold by_user_id; rewrite Hk; apply String.eqb_refl).
  induction rows as [| x rows IH]; simpl in *; [discriminate |].
  inversion Hp as [| ? ? Hx Hrest]; subst.
  destruct (same_id x r') eqn:Hs.
  - simpl. rewrite Hr'. reflexivity.
  - simpl. destruct (by_user_id (user_id r') x) eqn:Hb.
    + injection Hf as ->. exfalso.
      unfold same_id in Hs. rewrite Hid in Hs.
      destruct (id r) as [a |]; [| congruence].
      rewrite Z.eqb_refl in Hs. discriminate.
    + apply IH; assumption.
Qed.

Lemma persisted_commit (r' : UserSettings) (rows : list UserSettings) :
  persisted rows -> id r' <> None ->
  persisted (map (fun x => if same_id x r' then r' else x) rows).
Proof.
  intros Hp Hid. unfold persisted in *. apply Forall_map.
  eapply Forall_impl; [exact Hp |]. intros x Hx. simpl.
  destruct (same_id x r'); assumption.
Qed.

Lemma find_some_by_user_id (key : string) (r : UserSettings)
    (rows : list UserSettings) :
  List.find (by_user_id key) rows = Some r -> user_id r = key.
Proof.
  intros H. apply find_some in H as [_ H].
  unfold by_user_id in H. apply String.eqb_eq in H. exact H.
Qed.

Lemma find_some_persisted (key : string) (r : UserSettings)
    (rows : list UserSettings) :
  persisted rows -> List.find (by_user_id key) rows = Some r -> id r <> None.
Proof.
  intros Hp H. apply find_some in H as [Hin _].
  unfold persisted in Hp. rewrite Forall_forall in Hp.
  apply Hp. apply list_elem_of_In. exact Hin.
Qed.

(** The row that a lookup copies is the row itself. *)
Lemma copy_eta (r : UserSettings) :
  mkUserSettings (id r) (get_user_id r) (source_language r) (language r)
    (audio_language r) (voice_type r) (speed r) (source_language_name r)
    (language_name r) (audio_language_name r) (voice_type_name r) = r.
Proof. destruct r; reflexivity. Qed.

Lemma get_or_create_existing (uid : UserId) (w : World) (r : UserSettings) :
  query_fails env = false ->
  List.find (by_user_id (py_str uid)) (db w) = Some r ->
  get_or_create_user_settings L A V env uid w = (w, Returns r).
Proof.
  intros Hq Hf. unfold get_or_create_user_settings. unfold_py.
  rewrite Hq, Hf. rewrite copy_eta. reflexivity.
Qed.

Lemma get_or_create_returns_existing (uid : UserId) (w w' : World)
    (r s : UserSettings) :
  List.find (by_user_id (py_str uid)) (db w) = Some r ->
  get_or_create_user_settings L A V env uid w = (w', Returns s) ->
  w' = w /\ s = r.
Proof.
  intros Hf. unfold get_or_create_user_settings. unfold_py.
  destruct (query_fails env); [discriminate |].
  rewrite Hf, copy_eta. intros [= <- <-]. split; reflexivity.
Qed.

Lemma update_user_language_returns (uid : UserId) (code : string)
    (w w' : World) (r : UserSettings) :
  List.find (by_user_id (py_str uid)) (db w) = Some r ->
  update_user_language L env uid code w = (w', Returns tt) ->
  w' = committed w
         (set_language_name (if_not (L !! code) (upper code))
            (set_language code r))
         "Updated language for user {user_id} to {language_code}".
Proof.
  intros Hf. unfold update_user_language. unfold_py.
  destruct (query_fails env); [discriminate |]. rewrite Hf.
  destruct (commit_fails env); [discriminate |].
  intros [= <-]. reflexivity.
Qed.

Lemma update_user_audio_language_returns (uid : UserId) (code : string)
    (w w' : World) (r : UserSettings) :
  List.find (by_user_id (py_str uid)) (db w) = Some r ->
  update_user_audio_language A env uid code w = (w', Returns tt) ->
  w' = committed w
         (set_audio_language_name (if_not (A !! code) (upper code))
            (set_audio_language code r))
         "Updated audio language for user {user_id} to {language_code}".
Proof.
  intros Hf. unfold update_user_audio_language. unfold_py.
  destruct (query_fails env); [discriminate |]. rewrite Hf.
  destruct (commit_fails env); [discriminate |].
  intros [= <-]. reflexivity.
Qed.

Lemma update_user_voice_type_returns (uid : UserId) (code : string)
    (w w' : World) (r : UserSettings) :
  List.find (by_user_id (py_str uid)) (db w) = Some r ->
  update_user_voice_type V env uid code w = (w', Returns tt) ->
  w' = committed w
         (set_voice_type_name (if_not (V !! code) (upper code))
            (set_voice_type code r))
         "Updated voice type for user {user_id} to {voice_type}".
Proof.
  intros Hf. unfold update_user_voice_type. unfold_py.
  destruct (query_fails env); [discriminate |]. rewrite Hf.
  destruct (commit_fails env); [discriminate |].
  intros [= <-]. reflexivity.
Qed.

Lemma update_user_source_language_returns (uid : UserId) (code : string)
    (w w' : World) (r : UserSettings) :
  List.find (by_user_id (py_str uid)) (db w) = Some r ->
  update_user_source_language L env uid code w = (w', Returns tt) ->
  w' = committed w
         (set_source_language_name
            (if String.eqb code "auto" then "Автоопределение"
             else if_not (L !! code) (upper code))
            (set_source_language code r))
         "Updated source language for user {user_id} to {language_code}".
Proof.
  intros Hf. unfold update_user_source_language. unfold_py.
  destruct (query_fails env); [discriminate |]. rewrite Hf.
  destruct (commit_fails env); [discriminate |].
  intros [= <-]. reflexivity.
Qed.

Lemma update_user_speed_returns (uid : UserId) (speed : PyVal)
    (w w' : World) (r : UserSettings) :
  List.find (by_user_id (py_str uid)) (db w) = Some r ->
  update_user_speed env uid speed w = (w', Returns tt) ->
  exists x,
    py_float speed = Returns x /\
    w' = committed w (set_speed (PyFloat x) r)
           "Updated speed for user {user_id} to {speed}".
Proof.
  intros Hf. unfold update_user_speed. unfold_py.
  destruct (query_fails env); [discriminate |]. rewrite Hf.
  destruct (py_float speed) as [x | e].
  - destruct (commit_fails env); [discriminate |].
    intros [= <-]. exists x. split; reflexivity.
  - destruct (is_SQLAlchemyError e); discriminate.
Qed.

(** When its row exists, an update that the backend carries out returns. *)
Lemma update_user_language_runs (uid : UserId) (code : string) (w : World)
    (r : UserSettings) :
  query_fails env = false -> commit_fails env = false ->
  List.find (by_user_id (py_str uid)) (db w) = Some r ->
  exists w', update_user_language L env uid code w = (w', Returns tt).
Proof.
  intros Hq Hc Hf. unfold update_user_language. unfold_py.
  rewrite Hq, Hf, Hc. eexists. reflexivity.
Qed.

(** What a lookup finds after a commit on the user's own row. *)
Lemma find_committed (key m : string) (r r' : UserSettings) (w : World) :
  persisted (db w) ->
  List.find (by_user_id key) (db w) = Some r ->
  id r' = id r ->
  user_id r' = user_id r ->
  List.find (by_user_id key) (db (committed w r' m)) = Some r'.
Proof.
  intros Hp Hf Hid Hu. unfold committed. cbn [db].
  apply (find_commit key r); auto.
  rewrite Hu. eapply find_some_by_user_id; eauto.
Qed.

End StoreLemmas.

Section Invariant.

Context {py : Builtins}.
Variables L A V : gmap string string.
Variable env : Backend.

Ltac keeps_persisted Hp :=
  unfold_py;
  destruct (query_fails env); [intros [= <- _]; exact Hp |];
  match goal with
  | |- context [List.find ?f ?l] =>
      let Hf := fresh "Hf" in
      destruct (List.find f l) eqn:Hf; [| intros [= <- _]; exact Hp];
      try match goal with
        | |- context [py_float ?v] =>
            destruct (py_float v) as [? | []];
            try (intros [= <- _]; exact Hp)
        end;
      destruct (commit_fails env); intros [= <- _]; cbn [db];
      [exact Hp |];
      apply persisted_commit; [exact Hp |];
      exact (find_some_persisted _ _ _ Hp Hf)
  end.

(** The table invariant holds of the empty table and is kept by every
    store operation, whatever its outcome. *)
Lemma persisted_nil : persisted [].
Proof. constructor. Qed.

Lemma update_user_language_persisted (uid : UserId) (code : string)
    (w w' : World) (o : outcome unit) :
  persisted (db w) ->
  update_user_language L env uid code w = (w', o) -> persisted (db w').
Proof. intros Hp. unfold update_user_language. keeps_persisted Hp. Qed.

Lemma update_user_audio_language_persisted (uid : UserId) (code : string)
    (w w' : World) (o : outcome unit) :
  persisted (db w) ->
  update_user_audio_language A env uid code w = (w', o) -> persisted (db w').
Proof. intros Hp. unfold update_user_audio_language. keeps_persisted Hp. Qed.

Lemma update_user_voice_type_persisted (uid : UserId) (code : string)
    (w w' : World) (o : outcome unit) :
  persisted (db w) ->
  update_user_voice_type V env uid code w = (w', o) -> persisted (db w').
Proof. intros Hp. unfold update_user_voice_type. keeps_persisted Hp. Qed.

Lemma update_user_source_language_persisted (uid : UserId) (code : string)
    (w w' : World) (o : outcome unit) :
  persisted (db w) ->
  update_user_source_language L env uid code w = (w', o) ->
  persisted (db w').
Proof. intros Hp. unfold update_user_source_language. keeps_persisted Hp. Qed.

Lemma update_user_speed_persisted (uid : UserId) (speed : PyVal)
    (w w' : World) (o : outcome unit) :
  persisted (db w) ->
  update_user_speed env uid speed w = (w', o) -> persisted (db w').
Proof. intros Hp. unfold update_user_speed. keeps_persisted Hp. Qed.

Lemma get_or_create_user_settings_persisted (uid : UserId) (w w' : World)
    (o : outcome UserSettings) :
  persisted (db w) ->
  get_or_create_user_settings L A V env uid w = (w', o) -> persisted (db w').
Proof.
  intros Hp. unfold get_or_create_user_settings. unfold_py.
  destruct (query_fails env); [intros [= <- _]; exact Hp |].
  destruct (List.find _ (db w)); [intros [= <- _]; exact Hp |].
  destruct (commit_fails env); [intros [= <- _]; exact Hp |].
  cbn [user_id].
  destruct (existsb _ (db w)); intros [= <- _]; cbn [db]; [exact Hp |].
  unfold persisted. apply Forall_app. split; [exact Hp |].
  repeat constructor. discriminate.
Qed.

End Invariant.

Section MissingUser.

Context {py : Builtins}.
Variables L A V : gmap string string.
Variable env : Backend.

Lemma rows_of_0_find (key : string) (rows : list UserSettings) :
  rows_of key rows = 0%nat -> List.find (by_user_id key) rows = None.
Proof.
  unfold rows_of. induction rows as [| x rows IH]; simpl; [reflexivity |].
  destruct (by_user_id key x); simpl; [discriminate | exact IH].
Qed.

(** C6.  For a user without a row, and a backend whose query runs, each of
    the five store updates returns normally and leaves the world (the
    table and the log) as it was; the speed update does so for every
    argument, numeric or not. *)
Theorem update_missing_user_is_noop (uid : UserId) (code : string)
    (speed : PyVal) (w : World) :
  query_fails env = false ->
  rows_of (py_str uid) (db w) = 0%nat ->
  update_user_language L env uid code w = (w, Returns tt) /\
  update_user_source_language L env uid code w = (w, Returns tt) /\
  update_user_audio_language A env uid code w = (w, Returns tt) /\
  update_user_voice_type V env uid code w = (w, Returns tt) /\
  update_user_speed env uid speed w = (w, Returns tt).
Proof.
  intros Hq Hrows. apply rows_of_0_find in Hrows.
  unfold update_user_language, update_user_source_language,
    update_user_audio_language, update_user_voice_type, update_user_speed.
  unfold_py. rewrite Hq, Hrows. repeat split.
Qed.

End MissingUser.

Lemma update_missing_user_is_noop_witness :
  query_fails reachable = false /\
  rows_of (py_str (IdInt 7)) (db world_42) = 0%nat /\
  update_user_speed reachable (IdInt 7) (PyStr "fast") world_42
  = (world_42, Returns tt).
Proof.
  assert (Hq : query_fails reachable = false) by reflexivity.
  assert (Hr : rows_of (py_str (IdInt 7)) (db world_42) = 0%nat)
    by (vm_compute; reflexivity).
  destruct (update_missing_user_is_noop (py := runtime.builtins)
              translator.get_available_languages
              sample_AVAILABLE_AUDIO_LANGUAGES sample_VOICE_TYPES reachable
              (IdInt 7) "fr" (PyStr "fast") world_42 Hq Hr)
    as (_ & _ & _ & _ & Hspeed).
  repeat split; assumption.
Defined.

Section SpeedValidation.

Context {py : Builtins}.
Variable env : Backend.

(** C2.  For a user whose row exists and a backend whose query runs, the
    speed update with a non-numeric argument raises a validation error
    ([ValueError] for a string) and the world is unchanged: nothing is
    written to the row, and nothing is committed. *)
Theorem update_user_speed_rejects_non_numeric (uid : UserId) (speed : PyVal)
    (w : World) (r : UserSettings) :
  query_fails env = false ->
  List.find (by_user_id (py_str uid)) (db w) = Some r ->
  non_numeric speed ->
  exists e,
    ValidationError e /\
    (forall s, speed = PyStr s -> e = ValueError) /\
    update_user_speed env uid speed w = (w, Raises e).
Proof.
  intros Hq Hf Hn. unfold update_user_speed. unfold_py. rewrite Hq, Hf.
  destruct speed as [| n | x | s]; simpl in *; try contradiction.
  - exists TypeError. split; [right; reflexivity |].
    split; [intros s Hs; discriminate Hs | reflexivity].
  - rewrite Hn. exists ValueError. split; [left; reflexivity |].
    split; [intros; reflexivity | reflexivity].
Qed.

End SpeedValidation.

Lemma update_user_speed_rejects_non_numeric_witness :
  exists e,
    ValidationError e /\
    (forall s, PyStr (py := runtime.builtins) "fast" = PyStr s ->
               e = ValueError) /\
    update_user_speed reachable (IdStr "42") (PyStr "fast") world_42
    = (world_42, Raises e).
Proof.
  assert (Hf : exists r, List.find (by_user_id "42") (db world_42) = Some r)
    by (eexists; reflexivity).
  destruct Hf as [r Hf].
  assert (Hn : non_numeric (PyStr (py := runtime.builtins) "fast"))
    by (vm_compute; reflexivity).
  exact (update_user_speed_rejects_non_numeric (py := runtime.builtins)
           reachable (IdStr "42") (PyStr "fast") world_42 r eq_refl Hf Hn).
Defined.

Section WriteThenRead.

Context {py : Builtins}.
Variables A V : gmap string string.

Lemma lookup_fr : translator.get_available_languages !! "fr" = Some "French".
Proof. vm_compute. reflexivity. Qed.

Lemma lookup_ru : translator.get_available_languages !! "ru" = Some "Russian".
Proof. vm_compute. reflexivity. Qed.

(** C8.  For a user whose row exists, in a table whose rows carry their
    primary keys: once the store's language update with code "fr" has
    returned normally, every later lookup of that user that returns
    yields language "fr" and language name "French"; and a lookup does
    return whenever the backend runs its query. *)
Theorem language_update_then_read (env1 env2 : Backend) (uid : UserId)
    (w w1 : World) (r : UserSettings) :
  persisted (db w) ->
  List.find (by_user_id (py_str uid)) (db w) = Some r ->
  update_user_language translator.get_available_languages env1 uid "fr" w
  = (w1, Returns tt) ->
  (forall w2 s,
     get_or_create_user_settings translator.get_available_languages A V env2
       uid w1 = (w2, Returns s) ->
     language s = "fr" /\ language_name s = "French") /\
  (query_fails env2 = false ->
   exists s,
     get_or_create_user_settings translator.get_available_languages A V env2
       uid w1 = (w1, Returns s) /\
     language s = "fr" /\ language_name s = "French").
Proof.
  intros Hp Hf Hu.
  apply (update_user_language_returns _ _ _ _ _ _ r Hf) in Hu.
  rewrite lookup_fr in Hu. cbn [if_not String.eqb] in Hu.
  set (r' := set_language_name "French" (set_language "fr" r)) in *.
  assert (Hfind : List.find (by_user_id (py_str uid)) (db w1) = Some r').
  { subst w1. apply (find_committed _ _ r); auto. }
  split.
  - intros w2 s Hg.
    destruct (get_or_create_returns_existing _ _ _ _ _ _ _ _ _ Hfind Hg)
      as [_ ->].
    split; reflexivity.
  - intros Hq. exists r'. split; [| split; reflexivity].
    apply get_or_create_existing; assumption.
Qed.

End WriteThenRead.

Lemma language_update_then_read_witness :
  exists s,
    get_or_create_user_settings (py := runtime.builtins)
      translator.get_available_languages sample_AVAILABLE_AUDIO_LANGUAGES
      sample_VOICE_TYPES reachable (IdStr "42")
      (fst (update_user_language translator.get_available_languages reachable
              (IdStr "42") "fr" world_42))
    = (fst (update_user_language translator.get_available_languages reachable
              (IdStr "42") "fr" world_42), Returns s) /\
    language s = "fr" /\ language_name s = "French".
Proof.
  assert (Hp : persisted (db world_42))
    by (repeat constructor; discriminate).
  assert (Hf : exists r, List.find (by_user_id "42") (db world_42) = Some r)
    by (eexists; reflexivity).
  destruct Hf as [r Hf].
  assert (Hu : update_user_language translator.get_available_languages
                 reachable (IdStr "42") "fr" world_42
               = (fst (update_user_language translator.get_available_languages
                         reachable (IdStr "42") "fr" world_42), Returns tt))
    by reflexivity.
  exact (proj2 (language_update_then_read (py := runtime.builtins)
                  sample_AVAILABLE_AUDIO_LANGUAGES sample_VOICE_TYPES
                  reachable reachable (IdStr "42") world_42 _ r Hp Hf Hu)
               eq_refl).
Defined.

Section FirstLookupLemmas.

Context {py : Builtins}.
Variables L A V : gmap string string.

Lemma find_none_existsb (key : string) (rows : list UserSettings) :
  List.find (by_user_id key) rows = None ->
  existsb (by_user_id key) rows = false.
Proof.
  induction rows as [| x rows IH]; simpl; [reflexivity |].
  destruct (by_user_id key x); [discriminate | exact IH].
Qed.

Lemma find_snoc_new (key : string) (x : UserSettings)
    (rows : list UserSettings) :
  List.find (by_user_id key) rows = None ->
  by_user_id key x = true ->
  List.find (by_user_id key) (rows ++ [x]) = Some x.
Proof.
  intros Hn Hx. induction rows as [| y rows IH]; simpl in *.
  - rewrite Hx. reflexivity.
  - destruct (by_user_id key y); [discriminate | auto].
Qed.

Lemma rows_of_snoc (key : string) (x : UserSettings)
    (rows : list UserSettings) :
  by_user_id key x = true ->
  rows_of key (rows ++ [x]) = S (rows_of key rows).
Proof.
  intros Hx. unfold rows_of. rewrite List.filter_app, length_app.
  simpl. rewrite Hx. simpl. lia.
Qed.

(** The first lookup of a user without a row, on a backend that runs the
    query and the commit: the row of defaults joins the table and its
    copy is returned. *)
Lemma get_or_create_new (env : Backend) (uid : UserId) (w : World) :
  query_fails env = false -> commit_fails env = false ->
  List.find (by_user_id (py_str uid)) (db w) = None ->
  let s :=
    mkUserSettings (Some (fresh_id (db w))) (py_str uid)
      DEFAULT_SOURCE_LANGUAGE DEFAULT_LANGUAGE DEFAULT_AUDIO_LANGUAGE
      DEFAULT_VOICE_TYPE DEFAULT_SPEED "Автоопределение"
      (if_not (L !! DEFAULT_LANGUAGE) (upper DEFAULT_LANGUAGE))
      (if_not (A !! DEFAULT_AUDIO_LANGUAGE) (upper DEFAULT_AUDIO_LANGUAGE))
      (if_not (V !! DEFAULT_VOICE_TYPE) (upper DEFAULT_VOICE_TYPE)) in
  get_or_create_user_settings L A V env uid w
  = (mkWorld (db w ++ [s])
       (log w ++ [mkLog INFO "Created new settings for user {user_id}" None]),
     Returns s).
Proof.
  intros Hq Hc Hf. unfold get_or_create_user_settings. unfold_py.
  rewrite Hq, Hf, Hc. cbn [user_id].
  rewrite (find_none_existsb _ _ Hf). reflexivity.
Qed.

End FirstLookupLemmas.

Section FirstLookup.

Context {py : Builtins}.
Variables A V : gmap string string.

(** C3 (amended).  Two lookups in a row of a user without a row, on a
    reachable backend, both return, with the same field values; the table
    gains one row, the only row of that user; the values are the defaults
    "auto", "ru", "ru", "normal", 1.0, the auto-detect label for the
    source language, and for the language the catalog's name of "ru",
    which is "Russian". *)
Theorem get_or_create_twice_new_user (uid : UserId) (w : World) :
  rows_of (py_str uid) (db w) = 0%nat ->
  exists s w1 w2,
    get_or_create_user_settings translator.get_available_languages A V
      reachable uid w = (w1, Returns s) /\
    get_or_create_user_settings translator.get_available_languages A V
      reachable uid w1 = (w2, Returns s) /\
    rows_of (py_str uid) (db w2) = 1%nat /\
    length (db w2) = S (length (db w)) /\
    user_id s = py_str uid /\
    source_language s = "auto" /\
    language s = "ru" /\
    audio_language s = "ru" /\
    voice_type s = "normal" /\
    speed s = PyFloat float_1_0 /\
    source_language_name s = "Автоопределение" /\
    language_name s = "Russian".
Proof.
  intros Hrows. pose proof (rows_of_0_find _ _ Hrows) as Hf.
  pose proof (get_or_create_new translator.get_available_languages A V
                reachable uid w eq_refl eq_refl Hf) as H1.
  cbv zeta in H1.
  match type of H1 with _ = (?w1, Returns ?s) => set (s0 := s) in *;
    set (w10 := w1) in * end.
  assert (Hkey : by_user_id (py_str uid) s0 = true)
    by (unfold by_user_id; apply String.eqb_refl).
  assert (Hf1 : List.find (by_user_id (py_str uid)) (db w10) = Some s0)
    by (apply find_snoc_new; assumption).
  exists s0, w10, w10. split; [exact H1 |].
  split; [apply get_or_create_existing; [reflexivity | exact Hf1] |].
  split; [unfold w10; cbn [db]; rewrite rows_of_snoc, Hrows by assumption;
          reflexivity |].
  split; [unfold w10; cbn [db]; rewrite length_app; simpl; lia |].
  unfold s0. cbn [user_id source_language language audio_language voice_type
                  speed source_language_name language_name].
  unfold DEFAULT_LANGUAGE. rewrite lookup_ru.
  repeat split.
Qed.

End FirstLookup.

Lemma get_or_create_twice_new_user_witness :
  rows_of (py_str (IdStr "42")) (db empty_world) = 0%nat /\
  exists s w1 w2,
    get_or_create_user_settings translator.get_available_languages
      sample_AVAILABLE_AUDIO_LANGUAGES sample_VOICE_TYPES reachable
      (IdStr "42") empty_world = (w1, Returns s) /\
    get_or_create_user_settings translator.get_available_languages
      sample_AVAILABLE_AUDIO_LANGUAGES sample_VOICE_TYPES reachable
      (IdStr "42") w1 = (w2, Returns s) /\
    rows_of (py_str (IdStr "42")) (db w2) = 1%nat /\
    length (db w2) = S (length (db empty_world)) /\
    user_id s = py_str (IdStr "42") /\
    source_language s = "auto" /\
    language s = "ru" /\
    audio_language s = "ru" /\
    voice_type s = "normal" /\
    speed s = PyFloat float_1_0 /\
    source_language_name s = "Автоопределение" /\
    language_name s = "Russian".
Proof.
  split; [reflexivity |].
  exact (get_or_create_twice_new_user (py := runtime.builtins)
           sample_AVAILABLE_AUDIO_LANGUAGES sample_VOICE_TYPES (IdStr "42")
           empty_world eq_refl).
Defined.

(** C3, as stated, fails: the language name of a new user is not the
    Russian-language label of the column default. *)
Lemma new_user_language_name_is_not_the_column_default :
  exists s w1,
    get_or_create_user_settings (py := runtime.builtins)
      translator.get_available_languages sample_AVAILABLE_AUDIO_LANGUAGES
      sample_VOICE_TYPES reachable (IdStr "42") empty_world
    = (w1, Returns s) /\
    language_name s = "Russian" /\
    language_name s <> "Русский".
Proof.
  exists (mkUserSettings (Some 1) "42" "auto" "ru" "ru" "normal"
            (PyFloat (py := runtime.builtins) 1%Q) "Автоопределение"
            "Russian" "Русский" "Обычный").
  eexists. split; [reflexivity |]. split; [reflexivity | discriminate].
Qed.

Section NameDerivation.

Context {py : Builtins}.
Variables L A V : gmap string string.
Variable env : Backend.

Lemma get_or_create_new_returns (uid : UserId) (w w' : World)
    (s : UserSettings) :
  List.find (by_user_id (py_str uid)) (db w) = None ->
  get_or_create_user_settings L A V env uid w = (w', Returns s) ->
  get_or_create_user_settings L A V env uid w
  = (mkWorld (db w ++ [s])
       (log w ++ [mkLog INFO "Created new settings for user {user_id}" None]),
     Returns s) /\
  s = mkUserSettings (Some (fresh_id (db w))) (py_str uid)
        DEFAULT_SOURCE_LANGUAGE DEFAULT_LANGUAGE DEFAULT_AUDIO_LANGUAGE
        DEFAULT_VOICE_TYPE DEFAULT_SPEED "Автоопределение"
        (if_not (L !! DEFAULT_LANGUAGE) (upper DEFAULT_LANGUAGE))
        (if_not (A !! DEFAULT_AUDIO_LANGUAGE) (upper DEFAULT_AUDIO_LANGUAGE))
        (if_not (V !! DEFAULT_VOICE_TYPE) (upper DEFAULT_VOICE_TYPE)).
Proof.
  intros Hf Hg.
  destruct (query_fails env) eqn:Hq.
  { revert Hg. unfold get_or_create_user_settings. unfold_py.
    rewrite Hq. discriminate. }
  destruct (commit_fails env) eqn:Hc.
  { revert Hg. unfold get_or_create_user_settings. unfold_py.
    rewrite Hq, Hf, Hc. discriminate. }
  pose proof (get_or_create_new L A V env uid w Hq Hc Hf) as Hn.
  cbv zeta in Hn. rewrite Hn in Hg. injection Hg as _ Hs. subst s.
  split; [exact Hn | reflexivity].
Qed.

(** C4 (amended).  On every table and code, a store update that returns
    on a user whose row exists (the rows carrying their primary keys)
    leaves in the user's row the code and a display name that follows the
    name rule: the table's name when the code has a non-empty one, the
    upper-cased code when the code is absent or its name is empty.  For
    the source language the code "auto" always gets the auto-detect
    label, whatever the table holds.  The row that a first lookup creates
    follows the same rule on the defaults. *)
Theorem store_name_derivation (uid : UserId) (code : string) (w : World)
    (r : UserSettings) :
  persisted (db w) ->
  List.find (by_user_id (py_str uid)) (db w) = Some r ->
  (forall w',
     update_user_language L env uid code w = (w', Returns tt) ->
     exists r',
       List.find (by_user_id (py_str uid)) (db w') = Some r' /\
       language r' = code /\ name_rule L code (language_name r')) /\
  (forall w',
     update_user_audio_language A env uid code w = (w', Returns tt) ->
     exists r',
       List.find (by_user_id (py_str uid)) (db w') = Some r' /\
       audio_language r' = code /\ name_rule A code (audio_language_name r')) /\
  (forall w',
     update_user_voice_type V env uid code w = (w', Returns tt) ->
     exists r',
       List.find (by_user_id (py_str uid)) (db w') = Some r' /\
       voice_type r' = code /\ name_rule V code (voice_type_name r')) /\
  (forall w',
     update_user_source_language L env uid code w = (w', Returns tt) ->
     exists r',
       List.find (by_user_id (py_str uid)) (db w') = Some r' /\
       source_language r' = code /\
       (code = "auto" -> source_language_name r' = "Автоопределение") /\
       (code <> "auto" -> name_rule L code (source_language_name r'))) /\
  (forall uid0 w0 w' s,
     List.find (by_user_id (py_str uid0)) (db w0) = None ->
     get_or_create_user_settings L A V env uid0 w0 = (w', Returns s) ->
     List.find (by_user_id (py_str uid0)) (db w') = Some s /\
     source_language s = "auto" /\
     source_language_name s = "Автоопределение" /\
     name_rule L (language s) (language_name s) /\
     name_rule A (audio_language s) (audio_language_name s) /\
     name_rule V (voice_type s) (voice_type_name s)).
Proof.
  intros Hp Hf. repeat apply conj.
  - intros w' Hu.
    apply (update_user_language_returns _ _ _ _ _ _ r Hf) in Hu. subst w'.
    eexists. split; [apply (find_committed _ _ r); auto |].
    split; [reflexivity | apply if_not_name_rule].
  - intros w' Hu.
    apply (update_user_audio_language_returns _ _ _ _ _ _ r Hf) in Hu.
    subst w'.
    eexists. split; [apply (find_committed _ _ r); auto |].
    split; [reflexivity | apply if_not_name_rule].
  - intros w' Hu.
    apply (update_user_voice_type_returns _ _ _ _ _ _ r Hf) in Hu. subst w'.
    eexists. split; [apply (find_committed _ _ r); auto |].
    split; [reflexivity | apply if_not_name_rule].
  - intros w' Hu.
    apply (update_user_source_language_returns _ _ _ _ _ _ r Hf) in Hu.
    subst w'.
    eexists. split; [apply (find_committed _ _ r); auto |].
    split; [reflexivity |]. cbn [source_language_name set_source_language_name].
    split.
    + intros ->. reflexivity.
    + intros Hne. apply String.eqb_neq in Hne. rewrite Hne.
      apply if_not_name_rule.
  - intros uid0 w0 w' s Hn Hg.
    destruct (get_or_create_new_returns _ _ _ _ Hn Hg) as [Hrun Hs].
    rewrite Hrun in Hg. injection Hg as Hw. subst w'. cbn [db].
    split.
    { apply find_snoc_new; [exact Hn |].
      rewrite Hs. unfold by_user_id. apply String.eqb_refl. }
    rewrite Hs.
    cbn [source_language source_language_name language language_name
         audio_language audio_language_name voice_type voice_type_name].
    repeat split; try apply if_not_name_rule;
      try (intros v Hv Hne; apply (proj1 (if_not_name_rule _ _) v Hv Hne)).
Qed.

End NameDerivation.

Lemma store_name_derivation_witness :
  exists r',
    List.find (by_user_id "42")
      (db (fst (update_user_voice_type (py := runtime.builtins)
                  sample_VOICE_TYPES reachable (IdStr "42") "normal"
                  world_42))) = Some r' /\
    voice_type r' = "normal" /\
    name_rule (py := runtime.builtins) sample_VOICE_TYPES "normal"
      (voice_type_name r').
Proof.
  assert (Hp : persisted (db world_42))
    by (repeat constructor; discriminate).
  assert (Hf : exists r, List.find (by_user_id "42") (db world_42) = Some r)
    by (eexists; reflexivity).
  destruct Hf as [r Hf].
  destruct (store_name_derivation (py := runtime.builtins)
              translator.get_available_languages
              sample_AVAILABLE_AUDIO_LANGUAGES sample_VOICE_TYPES reachable
              (IdStr "42") "normal" world_42 r Hp Hf)
    as (_ & _ & Hvoice & _).
  apply Hvoice. reflexivity.
Defined.

(** C4, as stated, fails on a table that gives a code the empty name: the
    code is present, yet the stored name is the upper-cased code and not
    the table's value. *)
Lemma empty_table_name_is_not_stored :
  exists w' r' v,
    update_user_voice_type (py := runtime.builtins)
      {[ "xx" := EmptyString ]} reachable (IdStr "42") "xx" world_42
    = (w', Returns tt) /\
    List.find (by_user_id "42") (db w') = Some r' /\
    ({[ "xx" := EmptyString ]} : gmap string string) !! "xx" = Some v /\
    voice_type r' = "xx" /\
    voice_type_name r' = "XX" /\
    voice_type_name r' <> v.
Proof.
  eexists. eexists. exists EmptyString.
  split; [reflexivity |]. split; [reflexivity |].
  split; [reflexivity |]. split; [reflexivity |].
  split; [reflexivity | discriminate].
Qed.

Section FacadeMirror.

Context {py : Builtins}.
Variables L A V : gmap string string.
Variable env : Backend.

(** After a successful language update on a user with a row, the
    object's language and language name are those of the stored row. *)
Lemma update_language_mirrors_store
    (self : user_preferences.UserPreferences) (code : string)
    (w w' : World) (self' : user_preferences.UserPreferences)
    (r : UserSettings) :
  persisted (db w) ->
  List.find (by_user_id (py_str (user_preferences.user_id self))) (db w)
  = Some r ->
  (forall e, snd (update_user_language L env (user_preferences.user_id self)
                    code w) <> Raises e) ->
  user_preferences.update_language L env self code w = (w', Returns self') ->
  exists r',
    List.find (by_user_id (py_str (user_preferences.user_id self))) (db w')
    = Some r' /\
    user_preferences.language self' = language r' /\
    user_preferences.language_name self' = language_name r'.
Proof.
  intros Hp Hf Hok. unfold user_preferences.update_language.
  unfold try_except at 1. unfold bind at 1.
  destruct (update_user_language L env (user_preferences.user_id self) code w)
    as [w1 [[] | e]] eqn:Hu.
  - apply (update_user_language_returns _ _ _ _ _ _ r Hf) in Hu. subst w1.
    unfold_py. intros [= <- <-]. eexists.
    split.
    { cbn [db]. apply (find_commit _ r);
        [exact Hp | exact Hf | reflexivity |].
      exact (find_some_by_user_id _ _ _ Hf). }
    split; reflexivity.
  - exfalso. apply (Hok e). reflexivity.
Qed.

(** After a successful voice-type update on a user with a row, the stored
    name follows the upper-case fallback, while the object's name is the
    table's entry or the literal "Unknown". *)
Lemma update_voice_type_names
    (self : user_preferences.UserPreferences) (code : string)
    (w w' : World) (self' : user_preferences.UserPreferences)
    (r : UserSettings) :
  persisted (db w) ->
  List.find (by_user_id (py_str (user_preferences.user_id self))) (db w)
  = Some r ->
  (forall e, snd (update_user_voice_type V env (user_preferences.user_id self)
                    code w) <> Raises e) ->
  user_preferences.update_voice_type V env self code w = (w', Returns self') ->
  exists r',
    List.find (by_user_id (py_str (user_preferences.user_id self))) (db w')
    = Some r' /\
    user_preferences.voice_type self' = voice_type r' /\
    voice_type_name r' = if_not (V !! code) (upper code) /\
    user_preferences.voice_type_name self' = default "Unknown" (V !! code).
Proof.
  intros Hp Hf Hok. unfold user_preferences.update_voice_type.
  unfold try_except at 1. unfold bind at 1.
  destruct (update_user_voice_type V env (user_preferences.user_id self) code w)
    as [w1 [[] | e]] eqn:Hu.
  - apply (update_user_voice_type_returns _ _ _ _ _ _ r Hf) in Hu. subst w1.
    unfold_py. intros [= <- <-]. eexists.
    split.
    { cbn [db]. apply (find_commit _ r);
        [exact Hp | exact Hf | reflexivity |].
      exact (find_some_by_user_id _ _ _ Hf). }
    repeat split; reflexivity.
  - exfalso. apply (Hok e). reflexivity.
Qed.

End FacadeMirror.

(** C1 at the failing input.  A facade built for user "42" on an empty
    table, then [update_voice_type] with the code "robot", which the
    voice-type table does not hold: the store call succeeds and the row
    gets the name "ROBOT", the upper-cased code, while the object in
    memory gets the name "Unknown". *)
Theorem update_voice_type_unknown_code_diverges :
  exists self w1 self' w2 row,
    user_preferences.__init__ (py := runtime.builtins)
      translator.get_available_languages sample_AVAILABLE_AUDIO_LANGUAGES
      sample_VOICE_TYPES reachable (IdStr "42") empty_world
    = (w1, Returns self) /\
    update_user_voice_type sample_VOICE_TYPES reachable (IdStr "42") "robot" w1
    = (committed w1 row "Updated voice type for user {user_id} to {voice_type}",
       Returns tt) /\
    user_preferences.update_voice_type sample_VOICE_TYPES reachable self
      "robot" w1 = (w2, Returns self') /\
    sample_VOICE_TYPES !! "robot" = None /\
    List.find (by_user_id "42") (db w2) = Some row /\
    voice_type row = "robot" /\
    user_preferences.voice_type self' = "robot" /\
    voice_type_name row = "ROBOT" /\
    user_preferences.voice_type_name self' = "Unknown".
Proof.
  do 5 eexists.
  split; [reflexivity |]. split; [reflexivity |]. split; [reflexivity |].
  split; [reflexivity |]. split; [reflexivity |].
  repeat split; reflexivity.
Qed.

Section FacadeFailure.

Context {py : Builtins}.
Variables L A V : gmap string string.
Variable env : Backend.

Ltac store_raises :=
  unfold_py;
  repeat match goal with
    | |- context [query_fails ?b] => destruct (query_fails b)
    | |- context [List.find ?f ?l] => destruct (List.find f l)
    | |- context [py_float ?v] => destruct (py_float v) as [? | []]
    | |- context [commit_fails ?b] => destruct (commit_fails b)
    end;
  cbn; intros [= <- <-]; reflexivity.

(** A store update that raises leaves the table as it was. *)
Lemma update_user_language_raises (uid : UserId) (code : string)
    (w w' : World) (e : Exception) :
  update_user_language L env uid code w = (w', Raises e) -> db w' = db w.
Proof. unfold update_user_language. store_raises. Qed.

Lemma update_user_audio_language_raises (uid : UserId) (code : string)
    (w w' : World) (e : Exception) :
  update_user_audio_language A env uid code w = (w', Raises e) ->
  db w' = db w.
Proof. unfold update_user_audio_language. store_raises. Qed.

Lemma update_user_voice_type_raises (uid : UserId) (code : string)
    (w w' : World) (e : Exception) :
  update_user_voice_type V env uid code w = (w', Raises e) -> db w' = db w.
Proof. unfold update_user_voice_type. store_raises. Qed.

Lemma update_user_source_language_raises (uid : UserId) (code : string)
    (w w' : World) (e : Exception) :
  update_user_source_language L env uid code w = (w', Raises e) ->
  db w' = db w.
Proof. unfold update_user_source_language. store_raises. Qed.

Lemma update_user_speed_raises (uid : UserId) (speed : PyVal)
    (w w' : World) (e : Exception) :
  update_user_speed env uid speed w = (w', Raises e) -> db w' = db w.
Proof. unfold update_user_speed. store_raises. Qed.

Lemma non_numeric_raises (v : PyVal) :
  non_numeric v -> exists e, ValidationError e /\ py_float v = Raises e.
Proof.
  destruct v as [| n | x | s]; simpl; try contradiction.
  - intros _. exists TypeError. split; [right |]; reflexivity.
  - intros ->. exists ValueError. split; [left |]; reflexivity.
Qed.

(** C5.  When the store call of a facade update raises, the method
    returns normally, the object is the one it was called on, one error
    record is added to the log, and the table is as before the call.
    [update_speed] converts its argument first: on a non-numeric argument
    the store is not called, the world only gains the error record, and
    the method again returns the unchanged object. *)
Theorem facade_update_failure (self : user_preferences.UserPreferences)
    (code : string) (speed : PyVal) (w w' : World) (e : Exception) :
  (update_user_language L env (user_preferences.user_id self) code w
   = (w', Raises e) ->
   user_preferences.update_language L env self code w
   = (logged w'
        (mkLog ERROR "Failed to update language for user {self.user_id}: {e}"
           (Some e)),
      Returns self) /\
   db w' = db w) /\
  (update_user_audio_language A env (user_preferences.user_id self) code w
   = (w', Raises e) ->
   user_preferences.update_audio_language A env self code w
   = (logged w'
        (mkLog ERROR
           "Failed to update audio language for user {self.user_id}: {e}"
           (Some e)),
      Returns self) /\
   db w' = db w) /\
  (update_user_source_language L env (user_preferences.user_id self) code w
   = (w', Raises e) ->
   user_preferences.update_source_language L env self code w
   = (logged w'
        (mkLog ERROR
           "Failed to update source language for user {self.user_id}: {e}"
           (Some e)),
      Returns self) /\
   db w' = db w) /\
  (update_user_voice_type V env (user_preferences.user_id self) code w
   = (w', Raises e) ->
   user_preferences.update_voice_type V env self code w
   = (logged w'
        (mkLog ERROR
           "Failed to update voice type for user {self.user_id}: {e}"
           (Some e)),
      Returns self) /\
   db w' = db w) /\
  (forall x,
     py_float speed = Returns x ->
     update_user_speed env (user_preferences.user_id self) (PyFloat x) w
     = (w', Raises e) ->
     user_preferences.update_speed env self speed w
     = (logged w'
          (mkLog ERROR "Failed to update speed for user {self.user_id}: {e}"
             (Some e)),
        Returns self) /\
     db w' = db w) /\
  (non_numeric speed ->
   exists e',
     ValidationError e' /\
     user_preferences.update_speed env self speed w
     = (logged w
          (mkLog ERROR "Failed to update speed for user {self.user_id}: {e}"
             (Some e')),
        Returns self)).
Proof.
  repeat apply conj.
  - intros H. split; [| eapply update_user_language_raises; eauto].
    unfold user_preferences.update_language.
    unfold try_except at 1. unfold bind at 1. rewrite H. reflexivity.
  - intros H. split; [| eapply update_user_audio_language_raises; eauto].
    unfold user_preferences.update_audio_language.
    unfold try_except at 1. unfold bind at 1. rewrite H. reflexivity.
  - intros H. split; [| eapply update_user_source_language_raises; eauto].
    unfold user_preferences.update_source_language.
    unfold try_except at 1. unfold bind at 1. rewrite H. reflexivity.
  - intros H. split; [| eapply update_user_voice_type_raises; eauto].
    unfold user_preferences.update_voice_type.
    unfold try_except at 1. unfold bind at 1. rewrite H. reflexivity.
  - intros x Hx H. split; [| eapply update_user_speed_raises; eauto].
    unfold user_preferences.update_speed.
    unfold try_except at 1. unfold bind at 1. unfold lift at 1.
    rewrite Hx. unfold bind at 1. rewrite H. reflexivity.
  - intros Hn. destruct (non_numeric_raises _ Hn) as (e' & He' & Hr).
    exists e'. split; [exact He' |].
    unfold user_preferences.update_speed.
    unfold try_except at 1. unfold bind at 1. unfold lift at 1.
    rewrite Hr. reflexivity.
Qed.

End FacadeFailure.

Lemma facade_update_failure_witness :
  let w' :=
    logged world_42
      (mkLog ERROR "Database error while updating user language: {e}"
         (Some SQLAlchemyError)) in
  update_user_language translator.get_available_languages unreachable
    (IdStr "42") "fr" world_42 = (w', Raises SQLAlchemyError) /\
  user_preferences.update_language translator.get_available_languages
    unreachable prefs_42 "fr" world_42
  = (logged w'
       (mkLog ERROR "Failed to update language for user {self.user_id}: {e}"
          (Some SQLAlchemyError)),
     Returns prefs_42) /\
  db w' = db world_42.
Proof.
  intros w'.
  assert (Hs : update_user_language translator.get_available_languages
                 unreachable (user_preferences.user_id prefs_42) "fr" world_42
               = (w', Raises SQLAlchemyError)) by reflexivity.
  split; [exact Hs |].
  exact (proj1 (facade_update_failure (py := runtime.builtins)
                  translator.get_available_languages
                  sample_AVAILABLE_AUDIO_LANGUAGES sample_VOICE_TYPES
                  unreachable prefs_42 "fr" (PyStr "fast") world_42 w'
                  SQLAlchemyError) Hs).
Defined.

Section FacadeConstruction.

Context {py : Builtins}.
Variables L A V : gmap string string.
Variable env : Backend.

(** C7.  The constructor returns an object for every user, world and
    backend.  When the lookup in the store raises, the object holds the
    defaults in every field: "auto", "ru", "ru", "normal" and 1.0, the
    auto-detect label for the source language, and for the three other
    names what the name rule gives on the catalog tables; the world gains
    the error record only. *)
Theorem init_never_fails (uid : UserId) (w : World) :
  (exists w' self,
     user_preferences.__init__ L A V env uid w = (w', Returns self)) /\
  (forall w' e,
     get_or_create_user_settings L A V env uid w = (w', Raises e) ->
     exists self,
       user_preferences.__init__ L A V env uid w
       = (logged w'
            (mkLog ERROR
               "Failed to load preferences from database for user {user_id}: {e}"
               (Some e)),
          Returns self) /\
       user_preferences.user_id self = uid /\
       user_preferences.source_language self = DEFAULT_SOURCE_LANGUAGE /\
       user_preferences.language self = DEFAULT_LANGUAGE /\
       user_preferences.audio_language self = DEFAULT_AUDIO_LANGUAGE /\
       user_preferences.voice_type self = DEFAULT_VOICE_TYPE /\
       user_preferences.speed self = DEFAULT_SPEED /\
       user_preferences.source_language_name self = "Автоопределение" /\
       name_rule L DEFAULT_LANGUAGE (user_preferences.language_name self) /\
       name_rule A DEFAULT_AUDIO_LANGUAGE
         (user_preferences.audio_language_name self) /\
       name_rule V DEFAULT_VOICE_TYPE
         (user_preferences.voice_type_name self)).
Proof.
  split.
  - unfold user_preferences.__init__. unfold_py.
    destruct (get_or_create_user_settings L A V env uid w) as [w1 [s | e]].
    + destruct (py_float (speed s)) as [x | []]; cbn; eauto.
    + cbn. eauto.
  - intros w' e Hg. unfold user_preferences.__init__.
    unfold try_except at 1. unfold bind at 1. rewrite Hg.
    eexists. split; [reflexivity |].
    cbn [user_preferences.user_id user_preferences.source_language
         user_preferences.language user_preferences.audio_language
         user_preferences.voice_type user_preferences.speed
         user_preferences.source_language_name
         user_preferences.language_name
         user_preferences.audio_language_name
         user_preferences.voice_type_name].
    repeat (split; [reflexivity |]).
    split; [apply if_not_name_rule |].
    split; apply if_not_name_rule.
Qed.

(** What the constructor does with the stored speed. *)
Lemma init_speed_cases (uid : UserId) (w : World) :
  exists w' self,
    user_preferences.__init__ L A V env uid w = (w', Returns self) /\
    is_float (user_preferences.speed self) = true /\
    (forall w1 s,
       get_or_create_user_settings L A V env uid w = (w1, Returns s) ->
       (forall x, py_float (speed s) = Returns x ->
                  user_preferences.speed self = PyFloat x) /\
       (forall e, py_float (speed s) = Raises e ->
                  user_preferences.speed self = DEFAULT_SPEED)).
Proof.
  unfold user_preferences.__init__. unfold_py.
  destruct (get_or_create_user_settings L A V env uid w) as [w1 [s | e]].
  - destruct (py_float (speed s)) as [x | e] eqn:Hx.
    + do 2 eexists. split; [reflexivity |]. split; [reflexivity |].
      intros w2 s2 [= <- <-]. rewrite Hx.
      split; [intros y [= <-]; reflexivity | intros e He; discriminate He].
    + destruct e; cbn; do 2 eexists;
        (split; [reflexivity |]); (split; [reflexivity |]);
        intros w2 s2 [= <- <-]; rewrite Hx;
        (split; [intros y Hy; discriminate Hy | intros e' _; reflexivity]).
  - cbn. do 2 eexists. split; [reflexivity |]. split; [reflexivity |].
    intros w2 s2 Hd. discriminate Hd.
Qed.

(** C10.  The constructor returns an object whose speed is a float.  When
    the lookup returns a row, the speed is the conversion of the stored
    speed if [float] accepts it, and the default speed, without an
    exception, if the stored speed is [None] or a string that is not a
    number. *)
Theorem init_speed_is_float (uid : UserId) (w : World) :
  exists w' self,
    user_preferences.__init__ L A V env uid w = (w', Returns self) /\
    is_float (user_preferences.speed self) = true /\
    (forall w1 s,
       get_or_create_user_settings L A V env uid w = (w1, Returns s) ->
       (forall x, py_float (speed s) = Returns x ->
                  user_preferences.speed self = PyFloat x) /\
       (non_numeric (speed s) ->
        user_preferences.speed self = DEFAULT_SPEED)).
Proof.
  destruct (init_speed_cases uid w) as (w' & self & Hrun & Hfloat & Hcases).
  exists w', self. split; [exact Hrun |]. split; [exact Hfloat |].
  intros w1 s Hg. destruct (Hcases w1 s Hg) as [Hconv Hdef].
  split; [exact Hconv |].
  intros Hn. destruct (non_numeric_raises _ Hn) as (e & _ & He).
  exact (Hdef e He).
Qed.

End FacadeConstruction.

Lemma init_never_fails_witness :
  exists self,
    user_preferences.__init__ (py := runtime.builtins)
      translator.get_available_languages sample_AVAILABLE_AUDIO_LANGUAGES
      sample_VOICE_TYPES unreachable (IdInt 7) world_42
    = (logged
         (logged world_42
            (mkLog ERROR "Database error while getting user settings: {e}"
               (Some SQLAlchemyError)))
         (mkLog ERROR
            "Failed to load preferences from database for user {user_id}: {e}"
            (Some SQLAlchemyError)),
       Returns self) /\
    user_preferences.language self = "ru" /\
    user_preferences.speed self = PyFloat (py := runtime.builtins) 1%Q.
Proof.
  destruct (proj2 (init_never_fails (py := runtime.builtins)
                     translator.get_available_languages
                     sample_AVAILABLE_AUDIO_LANGUAGES sample_VOICE_TYPES
                     unreachable (IdInt 7) world_42)
                  (logged world_42
                     (mkLog ERROR
                        "Database error while getting user settings: {e}"
                        (Some SQLAlchemyError)))
                  SQLAlchemyError eq_refl)
    as (self & Hrun & _ & _ & Hlang & _ & _ & Hspeed & _).
  exists self. split; [exact Hrun |]. split; [exact Hlang | exact Hspeed].
Defined.

Lemma init_speed_is_float_witness :
  exists w' self,
    user_preferences.__init__ (py := runtime.builtins)
      translator.get_available_languages sample_AVAILABLE_AUDIO_LANGUAGES
      sample_VOICE_TYPES reachable (IdStr "42")
      (mkWorld
         [mkUserSettings (Some 1) "42" "auto" "ru" "ru" "normal"
            (PyStr "fast") "Автоопределение" "Russian" "Русский" "Обычный"]
         [])
    = (w', Returns self) /\
    user_preferences.speed self = PyFloat (py := runtime.builtins) 1%Q.
Proof.
  destruct (init_speed_is_float (py := runtime.builtins)
              translator.get_available_languages
              sample_AVAILABLE_AUDIO_LANGUAGES sample_VOICE_TYPES reachable
              (IdStr "42")
              (mkWorld
                 [mkUserSettings (Some 1) "42" "auto" "ru" "ru" "normal"
                    (PyStr "fast") "Автоопределение" "Russian" "Русский"
                    "Обычный"]
                 []))
    as (w' & self & Hrun & _ & Hspeed).
  exists w', self. split; [exact Hrun |].
  exact (proj2 (Hspeed _ _ eq_refl) eq_refl).
Defined.

Section UserIdForms.

Context {py : Builtins}.
Variables L A V : gmap string string.
Variable env : Backend.

Lemma get_or_create_returns_row (uid : UserId) (w w1 : World)
    (r : UserSettings) :
  persisted (db w) ->
  get_or_create_user_settings L A V env uid w = (w1, Returns r) ->
  persisted (db w1) /\
  List.find (by_user_id (py_str uid)) (db w1) = Some r /\
  query_fails env = false.
Proof.
  intros Hp Hg.
  assert (Hq : query_fails env = false).
  { revert Hg. unfold get_or_create_user_settings. unfold_py.
    destruct (query_fails env); [discriminate | reflexivity]. }
  destruct (List.find (by_user_id (py_str uid)) (db w)) as [r0 |] eqn:Hf.
  - destruct (get_or_create_returns_existing _ _ _ _ _ _ _ _ _ Hf Hg)
      as [-> ->].
    auto.
  - destruct (get_or_create_new_returns _ _ _ _ _ _ _ _ Hf Hg) as [Hrun Hs].
    rewrite Hrun in Hg. injection Hg as Hw. subst w1. cbn [db].
    split; [| split; [| exact Hq]].
    + unfold persisted. apply Forall_app. split; [exact Hp |].
      repeat constructor. rewrite Hs. discriminate.
    + apply find_snoc_new; [exact Hf |].
      rewrite Hs. unfold by_user_id. apply String.eqb_refl.
Qed.

Ltac same_row lem r Hp Hf Hq :=
  let Hret := fresh "Hret" in
  intros ? Hret; apply (lem _ r Hf) in Hret;
  match type of Hret with
  | ?w2 = committed _ ?r' _ =>
      subst w2; exists r';
      split;
      [apply get_or_create_existing;
       [exact Hq | apply (find_committed _ _ r); auto]
      | split; [reflexivity |];
        split; [reflexivity | unfold committed; cbn [db]; apply length_map]]
  end.

(** C9.  Each of the six store operations on an integer user id is the
    same computation as on its string form.  After a lookup under the
    integer form (on a table whose rows carry their primary keys), an
    update under the string form that returns has
    written to the very row the lookup returned: the next lookup under
    the integer form returns a row with the same primary key that holds
    the new value, and the table has as many rows as before. *)
Theorem user_id_forms_address_same_row (n : Z) (code : string)
    (speed : PyVal) (w w1 : World) (r : UserSettings) :
  let i := IdInt n in
  let s := IdStr (py_str (IdInt n)) in
  persisted (db w) ->
  get_or_create_user_settings L A V env i w = (w1, Returns r) ->
  (get_or_create_user_settings L A V env i
   = get_or_create_user_settings L A V env s /\
   update_user_language L env i code = update_user_language L env s code /\
   update_user_source_language L env i code
   = update_user_source_language L env s code /\
   update_user_audio_language A env i code
   = update_user_audio_language A env s code /\
   update_user_voice_type V env i code = update_user_voice_type V env s code /\
   update_user_speed env i speed = update_user_speed env s speed) /\
  (forall w2,
     update_user_language L env s code w1 = (w2, Returns tt) ->
     exists r',
       get_or_create_user_settings L A V env i w2 = (w2, Returns r') /\
       id r' = id r /\ language r' = code /\
       length (db w2) = length (db w1)) /\
  (forall w2,
     update_user_source_language L env s code w1 = (w2, Returns tt) ->
     exists r',
       get_or_create_user_settings L A V env i w2 = (w2, Returns r') /\
       id r' = id r /\ source_language r' = code /\
       length (db w2) = length (db w1)) /\
  (forall w2,
     update_user_audio_language A env s code w1 = (w2, Returns tt) ->
     exists r',
       get_or_create_user_settings L A V env i w2 = (w2, Returns r') /\
       id r' = id r /\ audio_language r' = code /\
       length (db w2) = length (db w1)) /\
  (forall w2,
     update_user_voice_type V env s code w1 = (w2, Returns tt) ->
     exists r',
       get_or_create_user_settings L A V env i w2 = (w2, Returns r') /\
       id r' = id r /\ voice_type r' = code /\
       length (db w2) = length (db w1)) /\
  (forall w2,
     update_user_speed env s speed w1 = (w2, Returns tt) ->
     exists r' x,
       get_or_create_user_settings L A V env i w2 = (w2, Returns r') /\
       id r' = id r /\ py_float speed = Returns x /\
       models.speed r' = PyFloat x /\
       length (db w2) = length (db w1)).
Proof.
  intros i s Hp0 Hg.
  destruct (get_or_create_returns_row _ _ _ _ Hp0 Hg) as (Hp & Hf & Hq).
  split; [repeat split |].
  split; [same_row (update_user_language_returns L env s code w1) r Hp Hf Hq |].
  split; [same_row (update_user_source_language_returns L env s code w1)
            r Hp Hf Hq |].
  split; [same_row (update_user_audio_language_returns A env s code w1)
            r Hp Hf Hq |].
  split; [same_row (update_user_voice_type_returns V env s code w1)
            r Hp Hf Hq |].
  intros w2 Hu.
  destruct (update_user_speed_returns env s speed w1 w2 r Hf Hu)
    as (x & Hx & ->).
  exists (set_speed (PyFloat x) r), x.
  split; [apply get_or_create_existing;
          [exact Hq | apply (find_committed _ _ r); auto] |].
  split; [reflexivity |]. split; [exact Hx |]. split; [reflexivity |].
  unfold committed. cbn [db]. apply length_map.
Qed.

End UserIdForms.

Lemma user_id_forms_address_same_row_witness :
  get_or_create_user_settings translator.get_available_languages
    sample_AVAILABLE_AUDIO_LANGUAGES sample_VOICE_TYPES reachable (IdInt 42)
    empty_world = (world_42, Returns row_42) /\
  exists w2 r',
    update_user_language translator.get_available_languages reachable
      (IdStr "42") "fr" world_42 = (w2, Returns tt) /\
    get_or_create_user_settings translator.get_available_languages
      sample_AVAILABLE_AUDIO_LANGUAGES sample_VOICE_TYPES reachable (IdInt 42)
      w2 = (w2, Returns r') /\
    id r' = id row_42 /\ language r' = "fr" /\
    length (db w2) = length (db world_42).
Proof.
  assert (Hp : persisted (db empty_world)) by constructor.
  assert (Hg : get_or_create_user_settings translator.get_available_languages
                 sample_AVAILABLE_AUDIO_LANGUAGES sample_VOICE_TYPES reachable
                 (IdInt 42) empty_world = (world_42, Returns row_42))
    by reflexivity.
  split; [exact Hg |].
  destruct (update_user_language_runs translator.get_available_languages
              reachable (IdStr "42") "fr" world_42 row_42 eq_refl eq_refl
              eq_refl) as [w2 Hu].
  destruct (user_id_forms_address_same_row (py := runtime.builtins)
              translator.get_available_languages
              sample_AVAILABLE_AUDIO_LANGUAGES sample_VOICE_TYPES reachable
              42 "fr" (PyStr "2.0") empty_world world_42 row_42 Hp Hg)
    as (_ & Hlang & _).
  destruct (Hlang w2 Hu) as (r' & Hread & Hid & Hcode & Hlen).
  exists w2, r'. repeat split; assumption.
Defined.

(** ** The scenario of the specification, on the concrete runtime *)

(** Building the facade of user 42 once the row exists. *)
Example init_on_existing_row :
  user_preferences.__init__ translator.get_available_languages
    sample_AVAILABLE_AUDIO_LANGUAGES sample_VOICE_TYPES reachable (IdStr "42")
    world_42
  = (logged world_42
       (mkLog INFO "Loaded preferences for user {user_id} from database" None),
     Returns prefs_42).
Proof. reflexivity. Qed.

(** [update_user_speed("42", "2.0")] stores the float 2.0. *)
Example update_speed_reads_decimal :
  exists w',
    update_user_speed reachable (IdStr "42") (PyStr "2.0") world_42
    = (w', Returns tt) /\
    speed <$> List.find (by_user_id "42") (db w')
    = Some (PyFloat (py := runtime.builtins) 2%Q).
Proof. eexists. split; reflexivity. Qed.

(** [update_user_voice_type("42", "normal")] stores the table's name. *)
Example update_voice_type_known_code :
  exists w',
    update_user_voice_type (py := runtime.builtins) sample_VOICE_TYPES
      reachable (IdStr "42") "normal" world_42 = (w', Returns tt) /\
    voice_type_name <$> List.find (by_user_id "42") (db w')
    = Some "Обычный".
Proof. eexists. split; reflexivity. Qed.

(** A second row for the same user is rejected by the unique constraint. *)
Example add_commit_rejects_duplicate :
  add_commit reachable row_42 world_42 = (world_42, Raises SQLAlchemyError).
Proof. reflexivity. Qed.

(** * Further properties of the settings store *)

Section StoreCases.

Context {py : Builtins}.
Variables L A V : gmap string string.
Variable env : Backend.

Lemma row_after_keys (u : Update) (r r' : UserSettings) :
  row_after L A V u r = Some r' -> id r' = id r /\ user_id r' = user_id r.
Proof.
  destruct u; simpl; try (intros [= <-]; split; reflexivity).
  destruct (py_float v); [intros [= <-]; split; reflexivity | discriminate].
Qed.

(** Every way a store update can end: the table is untouched, or the
    loaded row was replaced by the row the update computes. *)
Lemma store_update_cases (u : Update) (uid : UserId) (w w' : World)
    (o : outcome unit) :
  store_update L A V env u uid w = (w', o) ->
  db w' = db w \/
  (exists r r',
     List.find (by_user_id (py_str uid)) (db w) = Some r /\
     row_after L A V u r = Some r' /\
     db w' = map (fun x => if same_id x r' then r' else x) (db w) /\
     o = Returns tt /\
     query_fails env = false /\ commit_fails env = false).
Proof.
  destruct u; simpl;
    unfold update_user_source_language, update_user_language,
      update_user_audio_language, update_user_voice_type, update_user_speed;
    unfold_py;
    (destruct (query_fails env); [intros [= <- _]; left; reflexivity |]);
    (destruct (List.find _ (db w)) as [r |];
       [| intros [= <- _]; left; reflexivity]);
    try (destruct (py_float v) as [x | []];
         try (intros [= <- _]; left; reflexivity));
    (destruct (commit_fails env); intros [= <- <-];
       [left; reflexivity |]);
    right; eexists; eexists; repeat split; reflexivity.
Qed.

(** When the backend runs query and commit and the row is there, a store
    update returns, unless the speed does not convert. *)
Lemma store_update_runs (u : Update) (uid : UserId) (w : World)
    (r r' : UserSettings) :
  query_fails env = false -> commit_fails env = false ->
  List.find (by_user_id (py_str uid)) (db w) = Some r ->
  row_after L A V u r = Some r' ->
  exists w',
    store_update L A V env u uid w = (w', Returns tt) /\
    db w' = map (fun x => if same_id x r' then r' else x) (db w).
Proof.
  intros Hq Hc Hf.
  destruct u; simpl;
    unfold update_user_source_language, update_user_language,
      update_user_audio_language, update_user_voice_type, update_user_speed;
    unfold_py; rewrite Hq, Hf;
    try (destruct (py_float v) as [x | e]; [| discriminate]);
    rewrite Hc; intros [= <-]; eexists; split; reflexivity.
Qed.

(** Every way a lookup can end: the table is untouched, or the user had
    no row and the row of defaults was appended with a fresh key. *)
Lemma get_or_create_cases (uid : UserId) (w w' : World)
    (o : outcome UserSettings) :
  get_or_create_user_settings L A V env uid w = (w', o) ->
  db w' = db w \/
  (exists s,
     List.find (by_user_id (py_str uid)) (db w) = None /\
     db w' = (db w ++ [s])%list /\
     id s = Some (fresh_id (db w)) /\
     user_id s = py_str uid /\
     o = Returns s).
Proof.
  unfold get_or_create_user_settings. unfold_py.
  destruct (query_fails env); [intros [= <- _]; left; reflexivity |].
  destruct (List.find _ (db w)) eqn:Hf; [intros [= <- _]; left; reflexivity |].
  destruct (commit_fails env); [intros [= <- _]; left; reflexivity |].
  cbn [user_id].
  destruct (existsb _ (db w)); intros [= <- <-]; [left; reflexivity |].
  right. eexists. repeat split; reflexivity.
Qed.

End StoreCases.

Section SchemaLemmas.

Context {py : Builtins}.

Lemma NoDup_map_eq {B : Type} (f : UserSettings -> B)
    (rows : list UserSettings) (x y : UserSettings) :
  NoDup (map f rows) -> In x rows -> In y rows -> f x = f y -> x = y.
Proof.
  induction rows as [| z rows IH]; simpl; [contradiction |].
  intros Hnd Hx Hy Hxy. inversion Hnd as [| ? ? Hnotin Hrest]; subst.
  destruct Hx as [-> | Hx], Hy as [-> | Hy]; auto.
  - exfalso. apply Hnotin. rewrite Hxy. apply list_elem_of_In.
    apply in_map. exact Hy.
  - exfalso. apply Hnotin. rewrite <- Hxy. apply list_elem_of_In.
    apply in_map. exact Hx.
Qed.

Lemma same_id_true (x r : UserSettings) :
  same_id x r = true -> id x = id r /\ id r <> None.
Proof.
  unfold same_id. destruct (id x) as [a |], (id r) as [b |];
    try discriminate.
  intros H. apply Z.eqb_eq in H. subst. split; [reflexivity | discriminate].
Qed.

Lemma same_id_refl (r r' : UserSettings) :
  id r' = id r -> id r <> None -> same_id r r' = true.
Proof.
  unfold same_id. intros -> Hn. destruct (id r) as [a |]; [| congruence].
  apply Z.eqb_refl.
Qed.

(** A commit does not change any primary key. *)
Lemma map_id_commit (r' : UserSettings) (rows : list UserSettings) :
  map id (map (fun x => if same_id x r' then r' else x) rows) = map id rows.
Proof.
  rewrite map_map. apply map_ext. intros x.
  destruct (same_id x r') eqn:Hs; [| reflexivity].
  apply same_id_true in Hs as [Hs _]. symmetry. exact Hs.
Qed.

(** With distinct keys, a commit replaces the loaded row and only it. *)
Lemma commit_only_loaded (r r' x : UserSettings) (rows : list UserSettings) :
  NoDup (map id rows) -> In r rows -> In x rows -> id r' = id r ->
  same_id x r' = true -> x = r.
Proof.
  intros Hnd Hr Hx Hid Hs. apply same_id_true in Hs as [Hs _].
  apply (NoDup_map_eq id rows); auto. congruence.
Qed.

Lemma map_user_id_commit (r r' : UserSettings) (rows : list UserSettings) :
  NoDup (map id rows) -> In r rows ->
  id r' = id r -> user_id r' = user_id r ->
  map user_id (map (fun x => if same_id x r' then r' else x) rows)
  = map user_id rows.
Proof.
  intros Hnd Hr Hid Hu. rewrite map_map. apply map_ext_in. intros x Hx.
  destruct (same_id x r') eqn:Hs; [| reflexivity].
  rewrite (commit_only_loaded r r' x rows Hnd Hr Hx Hid Hs). exact Hu.
Qed.

Lemma schema_commit (r r' : UserSettings) (rows : list UserSettings) :
  schema_ok rows -> In r rows ->
  id r' = id r -> user_id r' = user_id r ->
  schema_ok (map (fun x => if same_id x r' then r' else x) rows).
Proof.
  intros (Hp & Hid & Hu) Hr Ei Eu. split; [| split].
  - apply persisted_commit; [exact Hp |]. rewrite Ei.
    unfold persisted in Hp. rewrite Forall_forall in Hp.
    apply Hp. apply list_elem_of_In. exact Hr.
  - rewrite map_id_commit. exact Hid.
  - rewrite (map_user_id_commit r r' rows Hid Hr Ei Eu). exact Hu.
Qed.

(** The next primary key is above every key of the table. *)
Lemma fresh_id_above (rows : list UserSettings) (r : UserSettings) (a : Z) :
  In r rows -> id r = Some a -> a < fresh_id rows.
Proof.
  unfold fresh_id. induction rows as [| x rows IH]; simpl; [contradiction |].
  intros [-> | Hin] Ha.
  - rewrite Ha. simpl. lia.
  - specialize (IH Hin Ha). lia.
Qed.

Lemma fresh_id_not_in (rows : list UserSettings) :
  ~ In (Some (fresh_id rows)) (map id rows).
Proof.
  intros Hin. apply in_map_iff in Hin as (r & Hr & Hin).
  pose proof (fresh_id_above rows r _ Hin Hr). lia.
Qed.

Lemma NoDup_snoc {B : Type} (l : list B) (x : B) :
  NoDup l -> ~ In x l -> NoDup (l ++ [x]).
Proof.
  induction l as [| y l IH]; simpl; intros Hnd Hx.
  - constructor; [| constructor]. intros H. apply list_elem_of_In in H.
    contradiction.
  - inversion Hnd as [| ? ? Hy Hl]; subst. constructor.
    + intros H. apply list_elem_of_In in H. apply in_app_or in H.
      destruct H as [H | [H | []]].
      * apply Hy. apply list_elem_of_In. exact H.
      * apply Hx. left. symmetry. exact H.
    + apply IH; [exact Hl |]. intros H. apply Hx. right. exact H.
Qed.

Lemma existsb_false_not_in (key : string) (rows : list UserSettings) :
  existsb (by_user_id key) rows = false -> ~ In key (map user_id rows).
Proof.
  induction rows as [| x rows IH]; simpl; [tauto |].
  intros H. apply orb_false_iff in H as [Hx Hrest].
  intros [Heq | Hin]; [| exact (IH Hrest Hin)].
  unfold by_user_id in Hx. rewrite Heq, String.eqb_refl in Hx. discriminate.
Qed.

Lemma schema_snoc (s : UserSettings) (rows : list UserSettings) :
  schema_ok rows ->
  id s = Some (fresh_id rows) ->
  List.find (by_user_id (user_id s)) rows = None ->
  schema_ok (rows ++ [s]).
Proof.
  intros (Hp & Hid & Hu) Es Hf. split; [| split].
  - unfold persisted. apply Forall_app. split; [exact Hp |].
    repeat constructor. rewrite Es. discriminate.
  - rewrite map_app. simpl. apply NoDup_snoc; [exact Hid |].
    rewrite Es. apply fresh_id_not_in.
  - rewrite map_app. simpl. apply NoDup_snoc; [exact Hu |].
    apply existsb_false_not_in. apply find_none_existsb. exact Hf.
Qed.

(** A unique [user_id] means at most one row per user. *)
Lemma rows_of_at_most_one (key : string) (rows : list UserSettings) :
  NoDup (map user_id rows) -> (rows_of key rows <= 1)%nat.
Proof.
  unfold rows_of. induction rows as [| x rows IH]; simpl; [lia |].
  intros Hnd. inversion Hnd as [| ? ? Hx Hrest]; subst.
  specialize (IH Hrest).
  destruct (by_user_id key x) eqn:Hb; [| exact IH]. simpl.
  assert (Hnone : List.filter (by_user_id key) rows = []).
  { destruct (List.filter (by_user_id key) rows) as [| y l] eqn:Hfl;
      [reflexivity |].
    exfalso. apply Hx. apply list_elem_of_In.
    assert (Hy : In y (List.filter (by_user_id key) rows))
      by (rewrite Hfl; left; reflexivity).
    apply filter_In in Hy as [Hy Hky].
    unfold by_user_id in *. apply String.eqb_eq in Hb, Hky.
    rewrite Hb, <- Hky. apply in_map. exact Hy. }
  rewrite Hnone. simpl. lia.
Qed.

End SchemaLemmas.

Section StoreExtras.

Context {py : Builtins}.
Variables L A V : gmap string string.
Variable env : Backend.

Lemma store_update_returns (u : Update) (uid : UserId) (w w' : World)
    (r : UserSettings) :
  List.find (by_user_id (py_str uid)) (db w) = Some r ->
  store_update L A V env u uid w = (w', Returns tt) ->
  exists r',
    row_after L A V u r = Some r' /\
    db w' = map (fun x => if same_id x r' then r' else x) (db w) /\
    query_fails env = false /\ commit_fails env = false.
Proof.
  intros Hf.
  destruct u; simpl;
    unfold update_user_source_language, update_user_language,
      update_user_audio_language, update_user_voice_type, update_user_speed;
    unfold_py;
    (destruct (query_fails env); [discriminate |]);
    rewrite Hf;
    try (destruct (py_float v) as [x | []]; try discriminate);
    (destruct (commit_fails env); [discriminate |]);
    intros [= <-]; eexists; repeat split; reflexivity.
Qed.

Lemma row_after_frame (u : Update) (r r' : UserSettings) (f : Field) :
  row_after L A V u r = Some r' -> f <> target u ->
  field_value f r' = field_value f r.
Proof.
  destruct u; simpl;
    try (destruct (py_float v); [| discriminate]);
    intros [= <-]; destruct f; simpl; intros Hne;
    try reflexivity; exfalso; apply Hne; reflexivity.
Qed.

Lemma find_snoc_other (key : string) (x : UserSettings)
    (rows : list UserSettings) :
  by_user_id key x = false ->
  List.find (by_user_id key) (rows ++ [x]) = List.find (by_user_id key) rows.
Proof.
  intros Hx. induction rows as [| y rows IH]; simpl.
  - rewrite Hx. reflexivity.
  - destruct (by_user_id key y); [reflexivity | exact IH].
Qed.

Lemma find_commit_other (key : string) (r r' : UserSettings)
    (rows : list UserSettings) :
  NoDup (map id rows) -> In r rows ->
  id r' = id r -> user_id r' = user_id r -> key <> user_id r ->
  List.find (by_user_id key)
    (map (fun x => if same_id x r' then r' else x) rows)
  = List.find (by_user_id key) rows.
Proof.
  intros Hnd Hr Hid Hu Hne.
  assert (Hall : forall x, In x rows -> same_id x r' = true -> x = r)
    by (intros x Hx Hs; exact (commit_only_loaded r r' x rows Hnd Hr Hx Hid Hs)).
  assert (Hr' : by_user_id key r' = false)
    by (unfold by_user_id; rewrite Hu; apply String.eqb_neq; congruence).
  assert (Hkr : by_user_id key r = false)
    by (unfold by_user_id; apply String.eqb_neq; congruence).
  clear Hnd Hr. induction rows as [| x rows IH]; simpl; [reflexivity |].
  destruct (same_id x r') eqn:Hs.
  - rewrite (Hall x (or_introl eq_refl) Hs), Hr', Hkr.
    apply IH. intros y Hy. apply Hall. right. exact Hy.
  - destruct (by_user_id key x); [reflexivity |].
    apply IH. intros y Hy. apply Hall. right. exact Hy.
Qed.

(** X1.  The constraints of the schema are an invariant of the store:
    from a table where every row has its key, keys are distinct and
    [user_id] is unique, a lookup and each of the five updates lead,
    whatever their outcome, to such a table; so no user ever has more
    than one row. *)
Theorem store_keeps_schema (uid : UserId) (u : Update) (w w1 w2 : World)
    (o1 : outcome UserSettings) (o2 : outcome unit) :
  schema_ok (db w) ->
  (get_or_create_user_settings L A V env uid w = (w1, o1) ->
   schema_ok (db w1) /\ forall key, (rows_of key (db w1) <= 1)%nat) /\
  (store_update L A V env u uid w = (w2, o2) ->
   schema_ok (db w2) /\ forall key, (rows_of key (db w2) <= 1)%nat).
Proof.
  intros Hs.
  assert (Hone : forall rows, schema_ok rows ->
                   forall key, (rows_of key rows <= 1)%nat)
    by (intros rows (_ & _ & Hu) key; apply rows_of_at_most_one; exact Hu).
  split; intros H.
  - assert (Hs1 : schema_ok (db w1)); [| split; [exact Hs1 | exact (Hone _ Hs1)]].
    destruct (get_or_create_cases L A V env uid w w1 o1 H)
      as [-> | (s & Hf & -> & Hid & Hu & _)]; [exact Hs |].
    apply schema_snoc; [exact Hs | exact Hid |]. rewrite Hu. exact Hf.
  - assert (Hs2 : schema_ok (db w2)); [| split; [exact Hs2 | exact (Hone _ Hs2)]].
    destruct (store_update_cases L A V env u uid w w2 o2 H)
      as [-> | (r & r' & Hf & Hr & -> & _)]; [exact Hs |].
    destruct (row_after_keys L A V u r r' Hr) as [Hid Hu].
    apply (schema_commit r); auto.
    apply find_some in Hf as [Hin _]. exact Hin.
Qed.

(** X2.  On a table that meets the schema, a lookup or an update for one
    user leaves the row of every other user as it was, whatever the
    outcome of the call. *)
Theorem store_leaves_other_users (uid : UserId) (u : Update) (key : string)
    (w w1 w2 : World) (o1 : outcome UserSettings) (o2 : outcome unit) :
  schema_ok (db w) ->
  key <> py_str uid ->
  (get_or_create_user_settings L A V env uid w = (w1, o1) ->
   List.find (by_user_id key) (db w1) = List.find (by_user_id key) (db w)) /\
  (store_update L A V env u uid w = (w2, o2) ->
   List.find (by_user_id key) (db w2) = List.find (by_user_id key) (db w)).
Proof.
  intros (Hp & Hid & Hu) Hne. split; intros H.
  - destruct (get_or_create_cases L A V env uid w w1 o1 H)
      as [-> | (s & Hf & -> & _ & Hus & _)]; [reflexivity |].
    apply find_snoc_other. unfold by_user_id. rewrite Hus.
    apply String.eqb_neq. congruence.
  - destruct (store_update_cases L A V env u uid w w2 o2 H)
      as [-> | (r & r' & Hf & Hr & -> & _)]; [reflexivity |].
    destruct (row_after_keys L A V u r r' Hr) as [Ei Eu].
    pose proof (find_some_by_user_id _ _ _ Hf) as Hk.
    apply find_some in Hf as [Hin _].
    apply (find_commit_other key r r'); auto. congruence.
Qed.

(** X3.  A store update that returns on a user with a row changes, in
    that row, only the value and the display name of its own field: the
    primary key, the user id and the four other fields with their names
    are as before. *)
Theorem store_update_touches_its_field (u : Update) (uid : UserId)
    (w w' : World) (r : UserSettings) :
  persisted (db w) ->
  List.find (by_user_id (py_str uid)) (db w) = Some r ->
  store_update L A V env u uid w = (w', Returns tt) ->
  exists r',
    List.find (by_user_id (py_str uid)) (db w') = Some r' /\
    id r' = id r /\ user_id r' = user_id r /\
    (forall f, f <> target u -> field_value f r' = field_value f r) /\
    length (db w') = length (db w).
Proof.
  intros Hp Hf Hu.
  destruct (store_update_returns u uid w w' r Hf Hu) as (r' & Hr & Hdb & _).
  destruct (row_after_keys L A V u r r' Hr) as [Ei Eu].
  exists r'. rewrite Hdb. split.
  { apply (find_commit _ r); auto.
    rewrite Eu. exact (find_some_by_user_id _ _ _ Hf). }
  split; [exact Ei |]. split; [exact Eu |].
  split; [intros f Hne; exact (row_after_frame u r r' f Hr Hne) |].
  apply length_map.
Qed.

Lemma same_id_congr (x r1 r2 : UserSettings) :
  id r1 = id r2 -> same_id x r1 = same_id x r2.
Proof. unfold same_id. intros ->. reflexivity. Qed.

(** Two commits on the same primary key: the second decides. *)
Lemma commit_twice (r1 r2 : UserSettings) (rows : list UserSettings) :
  id r1 = id r2 ->
  map (fun x => if same_id x r2 then r2 else x)
    (map (fun x => if same_id x r1 then r1 else x) rows)
  = map (fun x => if same_id x r2 then r2 else x) rows.
Proof.
  intros Hid. rewrite map_map. apply map_ext. intros x.
  pose proof (same_id_congr x r1 r2 Hid) as Hc.
  destruct (same_id x r1) eqn:Hs.
  - rewrite <- Hc. apply same_id_true in Hs as [_ Hn].
    rewrite (same_id_refl r1 r2); [reflexivity | congruence | exact Hn].
  - rewrite <- Hc. reflexivity.
Qed.

Lemma row_after_overwrite (u1 u2 : Update) (r r1 : UserSettings) :
  target u1 = target u2 ->
  row_after L A V u1 r = Some r1 ->
  row_after L A V u2 r1 = row_after L A V u2 r.
Proof.
  destruct u1, u2; simpl; try discriminate; intros _;
    try (destruct (py_float v); [| discriminate]);
    intros [= <-]; reflexivity.
Qed.

Lemma row_after_commute (u1 u2 : Update) (r r1 r12 : UserSettings) :
  target u1 <> target u2 ->
  row_after L A V u1 r = Some r1 ->
  row_after L A V u2 r1 = Some r12 ->
  exists r2,
    row_after L A V u2 r = Some r2 /\ row_after L A V u1 r2 = Some r12.
Proof.
  destruct u1, u2; simpl; intros Hne;
    try (exfalso; apply Hne; reflexivity);
    try (destruct (py_float v) as [x |]; [| discriminate]);
    intros [= <-];
    try (destruct (py_float v) as [x |]; [| discriminate]);
    intros [= <-]; eexists; split; reflexivity.
Qed.

(** X4.  The later of two updates of one field wins: when a user's row
    is updated twice for the same field and both calls return, the table
    is the one that the second update alone leaves, and the second
    update alone does return. *)
Theorem last_update_wins (u1 u2 : Update) (uid : UserId) (w w1 w2 : World)
    (r : UserSettings) :
  persisted (db w) ->
  List.find (by_user_id (py_str uid)) (db w) = Some r ->
  target u1 = target u2 ->
  store_update L A V env u1 uid w = (w1, Returns tt) ->
  store_update L A V env u2 uid w1 = (w2, Returns tt) ->
  exists w2',
    store_update L A V env u2 uid w = (w2', Returns tt) /\ db w2' = db w2.
Proof.
  intros Hp Hf Ht H1 H2.
  destruct (store_update_returns u1 uid w w1 r Hf H1) as (r1 & Hr1 & Hdb1 & _).
  destruct (row_after_keys L A V u1 r r1 Hr1) as [Ei1 Eu1].
  assert (Hf1 : List.find (by_user_id (py_str uid)) (db w1) = Some r1).
  { rewrite Hdb1. apply (find_commit _ r); auto.
    rewrite Eu1. exact (find_some_by_user_id _ _ _ Hf). }
  destruct (store_update_returns u2 uid w1 w2 r1 Hf1 H2)
    as (r12 & Hr12 & Hdb2 & Hq & Hc).
  destruct (row_after_keys L A V u2 r1 r12 Hr12) as [Ei2 _].
  rewrite (row_after_overwrite u1 u2 r r1 Ht Hr1) in Hr12.
  destruct (store_update_runs L A V env u2 uid w r r12 Hq Hc Hf Hr12)
    as (w2' & Hrun & Hdb).
  exists w2'. split; [exact Hrun |].
  rewrite Hdb, Hdb2, Hdb1. symmetry. apply commit_twice. congruence.
Qed.

(** X5.  Updates of different fields commute on the table: when a user's
    row is updated for one field and then for another and both calls
    return, the two updates in the other order return too and leave the
    same table. *)
Theorem updates_of_different_fields_commute (u1 u2 : Update) (uid : UserId)
    (w w1 w12 : World) (r : UserSettings) :
  persisted (db w) ->
  List.find (by_user_id (py_str uid)) (db w) = Some r ->
  target u1 <> target u2 ->
  store_update L A V env u1 uid w = (w1, Returns tt) ->
  store_update L A V env u2 uid w1 = (w12, Returns tt) ->
  exists w2 w21,
    store_update L A V env u2 uid w = (w2, Returns tt) /\
    store_update L A V env u1 uid w2 = (w21, Returns tt) /\
    db w21 = db w12.
Proof.
  intros Hp Hf Ht H1 H2.
  destruct (store_update_returns u1 uid w w1 r Hf H1) as (r1 & Hr1 & Hdb1 & _).
  destruct (row_after_keys L A V u1 r r1 Hr1) as [Ei1 Eu1].
  pose proof (find_some_by_user_id _ _ _ Hf) as Hk.
  assert (Hf1 : List.find (by_user_id (py_str uid)) (db w1) = Some r1).
  { rewrite Hdb1. apply (find_commit _ r); auto. congruence. }
  destruct (store_update_returns u2 uid w1 w12 r1 Hf1 H2)
    as (r12 & Hr12 & Hdb12 & Hq & Hc).
  destruct (row_after_keys L A V u2 r1 r12 Hr12) as [Ei12 _].
  destruct (row_after_commute u1 u2 r r1 r12 Ht Hr1 Hr12)
    as (r2 & Hr2 & Hr21).
  destruct (row_after_keys L A V u2 r r2 Hr2) as [Ei2 Eu2].
  destruct (store_update_runs L A V env u2 uid w r r2 Hq Hc Hf Hr2)
    as (w2 & Hrun2 & Hdb2).
  assert (Hf2 : List.find (by_user_id (py_str uid)) (db w2) = Some r2).
  { rewrite Hdb2. apply (find_commit _ r); auto. congruence. }
  destruct (store_update_runs L A V env u1 uid w2 r2 r12 Hq Hc Hf2 Hr21)
    as (w21 & Hrun21 & Hdb21).
  exists w2, w21. split; [exact Hrun2 |]. split; [exact Hrun21 |].
  rewrite Hdb21, Hdb2, Hdb12, Hdb1.
  rewrite (commit_twice r2 r12), (commit_twice r1 r12) by congruence.
  reflexivity.
Qed.

(** X6.  A lookup is idempotent: once a lookup of a user has returned a
    row, every later lookup of that user on a backend that runs the
    query returns the same row and leaves the table and the log as they
    are. *)
Theorem lookup_is_idempotent (env' : Backend) (uid : UserId) (w w1 : World)
    (r : UserSettings) :
  get_or_create_user_settings L A V env uid w = (w1, Returns r) ->
  query_fails env' = false ->
  get_or_create_user_settings L A V env' uid w1 = (w1, Returns r).
Proof.
  intros Hg Hq. apply get_or_create_existing; [exact Hq |].
  destruct (List.find (by_user_id (py_str uid)) (db w)) as [r0 |] eqn:Hf.
  - destruct (get_or_create_returns_existing _ _ _ _ _ _ _ _ _ Hf Hg)
      as [-> ->].
    exact Hf.
  - destruct (get_or_create_new_returns _ _ _ _ _ _ _ _ Hf Hg) as [Hrun Hs].
    rewrite Hrun in Hg. injection Hg as Hw. subst w1. cbn [db].
    apply find_snoc_new; [exact Hf |].
    rewrite Hs. unfold by_user_id. apply String.eqb_refl.
Qed.

Lemma py_float_not_storage (v : PyVal) :
  py_float v <> Raises SQLAlchemyError.
Proof.
  destruct v as [| n | x | t]; simpl; try discriminate.
  - destruct (float_of_int n); discriminate.
  - destruct (float_of_str t); discriminate.
Qed.


End StoreExtras.

Lemma schema_ok_world_42 : schema_ok (db world_42).
Proof.
  split; [| split].
  - repeat constructor. discriminate.
  - repeat constructor. apply not_elem_of_nil.
  - repeat constructor. apply not_elem_of_nil.
Qed.

Lemma persisted_world_42 : persisted (db world_42).
Proof. exact (proj1 schema_ok_world_42). Qed.

Lemma store_keeps_schema_witness :
  schema_ok (db world_42) /\
  schema_ok
    (db (fst (store_update translator.get_available_languages
                sample_AVAILABLE_AUDIO_LANGUAGES sample_VOICE_TYPES reachable
                (SetLanguage "fr") (IdStr "42") world_42))).
Proof.
  split; [exact schema_ok_world_42 |].
  exact (proj1
           (proj2 (store_keeps_schema (py := runtime.builtins)
                     translator.get_available_languages
                     sample_AVAILABLE_AUDIO_LANGUAGES sample_VOICE_TYPES
                     reachable (IdStr "42") (SetLanguage "fr") world_42
                     world_42 _ (Returns row_42) _ schema_ok_world_42)
                  eq_refl)).
Defined.

Lemma store_leaves_other_users_witness :
  List.find (by_user_id "42")
    (db (fst (get_or_create_user_settings (py := runtime.builtins)
                translator.get_available_languages
                sample_AVAILABLE_AUDIO_LANGUAGES sample_VOICE_TYPES reachable
                (IdInt 7) world_42)))
  = List.find (by_user_id "42") (db world_42).
Proof.
  assert (Hne : "42" <> py_str (IdInt 7)) by discriminate.
  exact (proj1 (store_leaves_other_users (py := runtime.builtins)
                  translator.get_available_languages
                  sample_AVAILABLE_AUDIO_LANGUAGES sample_VOICE_TYPES
                  reachable (IdInt 7) (SetLanguage "fr") "42" world_42 _
                  world_42 _ (Returns tt) schema_ok_world_42 Hne)
               eq_refl).
Defined.

Lemma store_update_touches_its_field_witness :
  exists r',
    List.find (by_user_id "42")
      (db (fst (store_update (py := runtime.builtins)
                  translator.get_available_languages
                  sample_AVAILABLE_AUDIO_LANGUAGES sample_VOICE_TYPES
                  reachable (SetLanguage "fr") (IdStr "42") world_42)))
    = Some r' /\
    field_value FVoiceType r' = field_value FVoiceType row_42.
Proof.
  destruct (store_update_touches_its_field (py := runtime.builtins)
              translator.get_available_languages
              sample_AVAILABLE_AUDIO_LANGUAGES sample_VOICE_TYPES reachable
              (SetLanguage "fr") (IdStr "42") world_42 _ row_42
              persisted_world_42 eq_refl eq_refl)
    as (r' & Hf & _ & _ & Hframe & _).
  exists r'. split; [exact Hf |]. apply Hframe. discriminate.
Defined.

Lemma last_update_wins_witness :
  exists w2',
    store_update (py := runtime.builtins) translator.get_available_languages
      sample_AVAILABLE_AUDIO_LANGUAGES sample_VOICE_TYPES reachable
      (SetLanguage "de") (IdStr "42") world_42 = (w2', Returns tt) /\
    db w2'
    = db (fst (store_update translator.get_available_languages
                 sample_AVAILABLE_AUDIO_LANGUAGES sample_VOICE_TYPES
                 reachable (SetLanguage "de") (IdStr "42")
                 (fst (store_update translator.get_available_languages
                         sample_AVAILABLE_AUDIO_LANGUAGES sample_VOICE_TYPES
                         reachable (SetLanguage "fr") (IdStr "42")
                         world_42)))).
Proof.
  exact (last_update_wins (py := runtime.builtins)
           translator.get_available_languages
           sample_AVAILABLE_AUDIO_LANGUAGES sample_VOICE_TYPES reachable
           (SetLanguage "fr") (SetLanguage "de") (IdStr "42") world_42 _ _
           row_42 persisted_world_42 eq_refl eq_refl eq_refl eq_refl).
Defined.

Lemma updates_of_different_fields_commute_witness :
  exists w2 w21,
    store_update (py := runtime.builtins) translator.get_available_languages
      sample_AVAILABLE_AUDIO_LANGUAGES sample_VOICE_TYPES reachable
      (SetSpeed (PyStr "2.0")) (IdStr "42") world_42 = (w2, Returns tt) /\
    store_update translator.get_available_languages
      sample_AVAILABLE_AUDIO_LANGUAGES sample_VOICE_TYPES reachable
      (SetLanguage "fr") (IdStr "42") w2 = (w21, Returns tt) /\
    db w21
    = db (fst (store_update translator.get_available_languages
                 sample_AVAILABLE_AUDIO_LANGUAGES sample_VOICE_TYPES
                 reachable (SetSpeed (PyStr "2.0")) (IdStr "42")
                 (fst (store_update translator.get_available_languages
                         sample_AVAILABLE_AUDIO_LANGUAGES sample_VOICE_TYPES
                         reachable (SetLanguage "fr") (IdStr "42")
                         world_42)))).
Proof.
  assert (Hne : target (py := runtime.builtins) (SetLanguage "fr")
                <> target (py := runtime.builtins) (SetSpeed (PyStr "2.0")))
    by (simpl; discriminate).
  exact (updates_of_different_fields_commute (py := runtime.builtins)
           translator.get_available_languages
           sample_AVAILABLE_AUDIO_LANGUAGES sample_VOICE_TYPES reachable
           (SetLanguage "fr") (SetSpeed (PyStr "2.0")) (IdStr "42") world_42
           _ _ row_42 persisted_world_42 eq_refl Hne eq_refl eq_refl).
Defined.

Lemma lookup_is_idempotent_witness :
  get_or_create_user_settings translator.get_available_languages
    sample_AVAILABLE_AUDIO_LANGUAGES sample_VOICE_TYPES reachable (IdStr "42")
    world_42 = (world_42, Returns row_42).
Proof.
  assert (Hg : get_or_create_user_settings translator.get_available_languages
                 sample_AVAILABLE_AUDIO_LANGUAGES sample_VOICE_TYPES reachable
                 (IdStr "42") empty_world = (world_42, Returns row_42))
    by reflexivity.
  exact (lookup_is_idempotent (py := runtime.builtins)
           translator.get_available_languages
           sample_AVAILABLE_AUDIO_LANGUAGES sample_VOICE_TYPES reachable
           reachable (IdStr "42") empty_world world_42 row_42 Hg eq_refl).
Defined.


(** * Further properties of the facade *)

Section FacadeExtras.

Context {py : Builtins}.
Variables L A V : gmap string string.
Variable env : Backend.

Lemma row_after_new_value (u : Update) (r r0 : UserSettings) :
  row_after L A V u r = Some r0 ->
  new_value u = Some (fst (field_value (target u) r0)).
Proof.
  destruct u; simpl; try (intros [= <-]; reflexivity).
  destruct (py_float v); [intros [= <-]; reflexivity | discriminate].
Qed.

(** X8.  On a backend that runs query and commit, a facade update for a
    user whose row exists returns, the row holds the requested value, and
    the object holds the same value.  For every field but the voice type
    the object also holds the row's display name; for the voice type it
    does so when the table gives the code a non-empty name. *)
Theorem facade_mirrors_store (u : Update)
    (self : user_preferences.UserPreferences) (w : World)
    (r r0 : UserSettings) :
  persisted (db w) ->
  query_fails env = false -> commit_fails env = false ->
  List.find (by_user_id (py_str (user_preferences.user_id self))) (db w)
  = Some r ->
  row_after L A V u r = Some r0 ->
  exists w' self',
    facade_update L A V env u self w = (w', Returns self') /\
    List.find (by_user_id (py_str (user_preferences.user_id self))) (db w')
    = Some r0 /\
    new_value u = Some (fst (field_value (target u) r0)) /\
    fst (facade_value (target u) self') = fst (field_value (target u) r0) /\
    (target u <> FVoiceType ->
     facade_value (target u) self' = field_value (target u) r0) /\
    (forall code v,
       u = SetVoiceType code -> V !! code = Some v -> v <> EmptyString ->
       facade_value FVoiceType self' = field_value FVoiceType r0).
Proof.
  intros Hp Hq Hc Hf Hr.
  pose proof (row_after_new_value u r r0 Hr) as Hnv.
  destruct (row_after_keys L A V u r r0 Hr) as [Ei Eu].
  assert (Hfind : forall w1,
             db w1 = map (fun x => if same_id x r0 then r0 else x) (db w) ->
             List.find
               (by_user_id (py_str (user_preferences.user_id self))) (db w1)
             = Some r0).
  { intros w1 ->. apply (find_commit _ r); auto.
    rewrite Eu. exact (find_some_by_user_id _ _ _ Hf). }
  destruct u as [code | code | code | code | v].
  - destruct (store_update_runs L A V env (SetSourceLanguage code)
                (user_preferences.user_id self) w r r0 Hq Hc Hf Hr)
      as (w1 & Hrun & Hdb).
    simpl in Hrun, Hr. injection Hr as <-.
    unfold facade_update, user_preferences.update_source_language.
    unfold try_except at 1. unfold bind at 1. rewrite Hrun. unfold_py.
    do 2 eexists. split; [reflexivity |].
    split; [cbn [db]; exact (Hfind w1 Hdb) |].
    split; [exact Hnv |].
    split; [simpl; destruct (String.eqb code "auto"); reflexivity |].
    split; [| intros c v' Hu; discriminate Hu].
    intros _. simpl. destruct (String.eqb code "auto"); reflexivity.
  - destruct (store_update_runs L A V env (SetLanguage code)
                (user_preferences.user_id self) w r r0 Hq Hc Hf Hr)
      as (w1 & Hrun & Hdb).
    simpl in Hrun, Hr. injection Hr as <-.
    unfold facade_update, user_preferences.update_language.
    unfold try_except at 1. unfold bind at 1. rewrite Hrun. unfold_py.
    do 2 eexists. split; [reflexivity |].
    split; [cbn [db]; exact (Hfind w1 Hdb) |].
    split; [exact Hnv |]. split; [reflexivity |].
    split; [intros _; reflexivity | intros c v' Hu; discriminate Hu].
  - destruct (store_update_runs L A V env (SetAudioLanguage code)
                (user_preferences.user_id self) w r r0 Hq Hc Hf Hr)
      as (w1 & Hrun & Hdb).
    simpl in Hrun, Hr. injection Hr as <-.
    unfold facade_update, user_preferences.update_audio_language.
    unfold try_except at 1. unfold bind at 1. rewrite Hrun. unfold_py.
    do 2 eexists. split; [reflexivity |].
    split; [cbn [db]; exact (Hfind w1 Hdb) |].
    split; [exact Hnv |]. split; [reflexivity |].
    split; [intros _; reflexivity | intros c v' Hu; discriminate Hu].
  - destruct (store_update_runs L A V env (SetVoiceType code)
                (user_preferences.user_id self) w r r0 Hq Hc Hf Hr)
      as (w1 & Hrun & Hdb).
    simpl in Hrun, Hr. injection Hr as <-.
    unfold facade_update, user_preferences.update_voice_type.
    unfold try_except at 1. unfold bind at 1. rewrite Hrun. unfold_py.
    do 2 eexists. split; [reflexivity |].
    split; [cbn [db]; exact (Hfind w1 Hdb) |].
    split; [exact Hnv |]. split; [reflexivity |].
    split; [intros Hne; exfalso; apply Hne; reflexivity |].
    intros c v' [= <-] Hv Hne. simpl. rewrite Hv. simpl.
    destruct (String.eqb_spec v' EmptyString); [contradiction | reflexivity].
  - simpl in Hr. destruct (py_float v) as [x | e] eqn:Hx; [| discriminate].
    injection Hr as <-.
    assert (Hr' : row_after L A V (SetSpeed (PyFloat x)) r
                  = Some (set_speed (PyFloat x) r)) by reflexivity.
    destruct (store_update_runs L A V env (SetSpeed (PyFloat x))
                (user_preferences.user_id self) w r _ Hq Hc Hf Hr')
      as (w1 & Hrun & Hdb).
    simpl in Hrun.
    unfold facade_update, user_preferences.update_speed.
    unfold try_except at 1. unfold bind at 1. unfold lift at 1.
    rewrite Hx. unfold bind at 1. rewrite Hrun. unfold_py.
    do 2 eexists. split; [reflexivity |].
    split; [cbn [db]; exact (Hfind w1 Hdb) |].
    split; [exact Hnv |]. split; [reflexivity |].
    split; [intros _; reflexivity | intros c v' Hu; discriminate Hu].
Qed.

Lemma store_update_missing (u : Update) (uid : UserId) (w : World) :
  query_fails env = false ->
  List.find (by_user_id (py_str uid)) (db w) = None ->
  store_update L A V env u uid w = (w, Returns tt).
Proof.
  intros Hq Hf.
  destruct u; simpl;
    unfold update_user_source_language, update_user_language,
      update_user_audio_language, update_user_voice_type, update_user_speed;
    unfold_py; rewrite Hq, Hf; reflexivity.
Qed.

(** X9.  A facade update for a user without a row, on a backend that
    runs the query: the store call is a silent no-op, so the method
    returns with the requested value in the object while the table is
    unchanged and still has no row for the user. *)
Theorem facade_update_without_row (u : Update)
    (self : user_preferences.UserPreferences) (w : World) (nv : PyVal) :
  query_fails env = false ->
  rows_of (py_str (user_preferences.user_id self)) (db w) = 0%nat ->
  new_value u = Some nv ->
  exists w' self',
    facade_update L A V env u self w = (w', Returns self') /\
    fst (facade_value (target u) self') = nv /\
    db w' = db w /\
    rows_of (py_str (user_preferences.user_id self)) (db w') = 0%nat.
Proof.
  intros Hq Hrows Hnv. pose proof (rows_of_0_find _ _ Hrows) as Hf.
  destruct u as [code | code | code | code | v]; simpl in Hnv.
  - pose proof (store_update_missing (SetSourceLanguage code) _ w Hq Hf)
      as Hrun. simpl in Hrun. injection Hnv as <-.
    unfold facade_update, user_preferences.update_source_language.
    unfold try_except at 1. unfold bind at 1. rewrite Hrun. unfold_py.
    do 2 eexists. split; [reflexivity |].
    split; [simpl; destruct (String.eqb code "auto"); reflexivity |].
    split; [reflexivity | exact Hrows].
  - pose proof (store_update_missing (SetLanguage code) _ w Hq Hf) as Hrun.
    simpl in Hrun. injection Hnv as <-.
    unfold facade_update, user_preferences.update_language.
    unfold try_except at 1. unfold bind at 1. rewrite Hrun. unfold_py.
    do 2 eexists. split; [reflexivity |]. split; [reflexivity |].
    split; [reflexivity | exact Hrows].
  - pose proof (store_update_missing (SetAudioLanguage code) _ w Hq Hf)
      as Hrun. simpl in Hrun. injection Hnv as <-.
    unfold facade_update, user_preferences.update_audio_language.
    unfold try_except at 1. unfold bind at 1. rewrite Hrun. unfold_py.
    do 2 eexists. split; [reflexivity |]. split; [reflexivity |].
    split; [reflexivity | exact Hrows].
  - pose proof (store_update_missing (SetVoiceType code) _ w Hq Hf) as Hrun.
    simpl in Hrun. injection Hnv as <-.
    unfold facade_update, user_preferences.update_voice_type.
    unfold try_except at 1. unfold bind at 1. rewrite Hrun. unfold_py.
    do 2 eexists. split; [reflexivity |]. split; [reflexivity |].
    split; [reflexivity | exact Hrows].
  - destruct (py_float v) as [x | e] eqn:Hx; [| discriminate].
    injection Hnv as <-.
    pose proof (store_update_missing (SetSpeed (PyFloat x)) _ w Hq Hf)
      as Hrun. simpl in Hrun.
    unfold facade_update, user_preferences.update_speed.
    unfold try_except at 1. unfold bind at 1. unfold lift at 1.
    rewrite Hx. unfold bind at 1. rewrite Hrun. unfold_py.
    do 2 eexists. split; [reflexivity |]. split; [reflexivity |].
    split; [reflexivity | exact Hrows].
Qed.

Ltac facade_returns :=
  unfold try_except at 1; unfold bind at 1;
  match goal with
  | |- context [?call ?w] =>
      match type of (call w) with
      | (World * outcome unit)%type =>
          destruct (call w) as [? [[] | ?]]
      end
  end;
  unfold_py; do 2 eexists;
  (split; [reflexivity |]); (split; [reflexivity |]);
  (split; [intros [] Hne; try reflexivity; exfalso; apply Hne; reflexivity |]);
  (split; [intros Hfl; first [exact Hfl | reflexivity] |]);
  first [left; reflexivity | right; eexists; split; reflexivity].

(** X10.  No method of the facade raises: for every update, object, world
    and backend the method returns an object.  The object keeps its user
    id and every field other than the updated one, a float speed stays a
    float, and the object is either untouched or holds the requested
    value. *)
Theorem facade_update_never_raises (u : Update)
    (self : user_preferences.UserPreferences) (w : World) :
  exists w' self',
    facade_update L A V env u self w = (w', Returns self') /\
    user_preferences.user_id self' = user_preferences.user_id self /\
    (forall f, f <> target u ->
               facade_value f self' = facade_value f self) /\
    (is_float (user_preferences.speed self) = true ->
     is_float (user_preferences.speed self') = true) /\
    (self' = self \/
     exists nv,
       new_value u = Some nv /\ fst (facade_value (target u) self') = nv).
Proof.
  destruct u as [code | code | code | code | v]; simpl.
  - unfold user_preferences.update_source_language.
    destruct (String.eqb code "auto"); facade_returns.
  - unfold user_preferences.update_language. facade_returns.
  - unfold user_preferences.update_audio_language. facade_returns.
  - unfold user_preferences.update_voice_type. facade_returns.
  - unfold user_preferences.update_speed.
    unfold try_except at 1. unfold bind at 1. unfold lift at 1.
    destruct (py_float v) as [x | e].
    + unfold bind at 1.
      destruct (update_user_speed env (user_preferences.user_id self)
                  (PyFloat x) w) as [w1 [[] | e]];
        unfold_py; do 2 eexists;
        (split; [reflexivity |]); (split; [reflexivity |]);
        (split; [intros [] Hne; try reflexivity;
                 exfalso; apply Hne; reflexivity |]);
        (split; [intros Hfl; first [exact Hfl | reflexivity] |]);
        first [left; reflexivity | right; eexists; split; reflexivity].
    + unfold_py. do 2 eexists.
      split; [reflexivity |]. split; [reflexivity |].
      split; [intros f _; reflexivity |]. split; [tauto |].
      left. reflexivity.
Qed.

Lemma get_or_create_runs (uid : UserId) (w : World) :
  query_fails env = false -> commit_fails env = false ->
  exists w1 r,
    get_or_create_user_settings L A V env uid w = (w1, Returns r) /\
    List.find (by_user_id (py_str uid)) (db w1) = Some r.
Proof.
  intros Hq Hc.
  destruct (List.find (by_user_id (py_str uid)) (db w)) as [r |] eqn:Hf.
  - exists w, r. split; [| exact Hf].
    apply get_or_create_existing; assumption.
  - pose proof (get_or_create_new L A V env uid w Hq Hc Hf) as Hn.
    cbv zeta in Hn. do 2 eexists. split; [exact Hn |].
    cbn [db]. apply find_snoc_new; [exact Hf |].
    unfold by_user_id. apply String.eqb_refl.
Qed.

(** X11.  On a backend that runs query and commit, the constructor leaves
    the user with a row in the table and returns an object for that user.
    Unless [float] overflows on the stored speed, the four codes and
    their display names in the object are those of the row, and the
    speed is the converted stored speed, or the default when the stored
    speed is not a number.  If [float] overflows on the stored speed, the
    object holds the defaults instead of the row's values. *)
Theorem init_hydrates_from_row (uid : UserId) (w : World) :
  query_fails env = false -> commit_fails env = false ->
  exists w' self r,
    user_preferences.__init__ L A V env uid w = (w', Returns self) /\
    List.find (by_user_id (py_str uid)) (db w') = Some r /\
    user_preferences.user_id self = uid /\
    (py_float (speed r) <> Raises OverflowError ->
     (forall f, f <> FSpeed -> facade_value f self = field_value f r) /\
     (forall x, py_float (speed r) = Returns x ->
                user_preferences.speed self = PyFloat x) /\
     (non_numeric (speed r) ->
      user_preferences.speed self = DEFAULT_SPEED)) /\
    (py_float (speed r) = Raises OverflowError ->
     user_preferences.source_language self = DEFAULT_SOURCE_LANGUAGE /\
     user_preferences.language self = DEFAULT_LANGUAGE /\
     user_preferences.audio_language self = DEFAULT_AUDIO_LANGUAGE /\
     user_preferences.voice_type self = DEFAULT_VOICE_TYPE /\
     user_preferences.speed self = DEFAULT_SPEED).
Proof.
  intros Hq Hc.
  destruct (get_or_create_runs uid w Hq Hc) as (w1 & r & Hg & Hf).
  unfold user_preferences.__init__.
  unfold try_except at 1. unfold bind at 1. rewrite Hg.
  unfold_py.
  destruct (py_float (speed r)) as [x | e] eqn:Hx.
  - do 3 eexists. split; [reflexivity |]. cbn [db].
    split; [exact Hf |]. split; [reflexivity |]. rewrite Hx.
    split; [| intros Hd; discriminate Hd].
    intros _. split; [| split].
    + intros [] Hne; try reflexivity. exfalso. apply Hne. reflexivity.
    + intros y [= <-]. reflexivity.
    + intros Hn. destruct (non_numeric_raises _ Hn) as (e & _ & He).
      rewrite Hx in He. discriminate He.
  - pose proof (py_float_not_storage (speed r)) as Hns.
    destruct e; [exfalso; apply Hns; exact Hx | | |];
      cbn; do 3 eexists;
      (split; [reflexivity |]); cbn [db];
      (split; [exact Hf |]); (split; [reflexivity |]); rewrite Hx.
    + split; [| intros Hd; discriminate Hd].
      intros _. split; [| split].
      * intros [] Hne; try reflexivity. exfalso. apply Hne. reflexivity.
      * intros y Hy. discriminate Hy.
      * intros _. reflexivity.
    + split; [| intros Hd; discriminate Hd].
      intros _. split; [| split].
      * intros [] Hne; try reflexivity. exfalso. apply Hne. reflexivity.
      * intros y Hy. discriminate Hy.
      * intros _. reflexivity.
    + split; [intros Hne; exfalso; apply Hne; reflexivity |].
      intros _. repeat split; reflexivity.
Qed.

End FacadeExtras.

Lemma facade_mirrors_store_witness :
  exists w' self',
    facade_update (py := runtime.builtins) translator.get_available_languages
      sample_AVAILABLE_AUDIO_LANGUAGES sample_VOICE_TYPES reachable
      (SetLanguage "fr") prefs_42 world_42 = (w', Returns self') /\
    List.find (by_user_id "42") (db w')
    = Some (set_language_name "French" (set_language "fr" row_42)) /\
    facade_value FLanguage self' = (PyStr "fr", "French").
Proof.
  destruct (facade_mirrors_store (py := runtime.builtins)
              translator.get_available_languages
              sample_AVAILABLE_AUDIO_LANGUAGES sample_VOICE_TYPES reachable
              (SetLanguage "fr") prefs_42 world_42 row_42
              (set_language_name "French" (set_language "fr" row_42))
              persisted_world_42 eq_refl eq_refl eq_refl eq_refl)
    as (w' & self' & Hrun & Hf & _ & _ & Hm & _).
  exists w', self'. split; [exact Hrun |]. split; [exact Hf |].
  apply Hm. discriminate.
Defined.

Lemma facade_update_without_row_witness :
  exists w' self',
    facade_update (py := runtime.builtins) translator.get_available_languages
      sample_AVAILABLE_AUDIO_LANGUAGES sample_VOICE_TYPES reachable
      (SetLanguage "fr") prefs_42 empty_world = (w', Returns self') /\
    fst (facade_value FLanguage self') = PyStr "fr" /\
    db w' = db empty_world /\
    rows_of "42" (db w') = 0%nat.
Proof.
  exact (facade_update_without_row (py := runtime.builtins)
           translator.get_available_languages
           sample_AVAILABLE_AUDIO_LANGUAGES sample_VOICE_TYPES reachable
           (SetLanguage "fr") prefs_42 empty_world (PyStr "fr")
           eq_refl eq_refl eq_refl).
Defined.

Lemma init_hydrates_from_row_witness :
  exists w' self r,
    user_preferences.__init__ (py := runtime.builtins)
      translator.get_available_languages sample_AVAILABLE_AUDIO_LANGUAGES
      sample_VOICE_TYPES reachable (IdStr "42") empty_world
    = (w', Returns self) /\
    List.find (by_user_id "42") (db w') = Some r /\
    user_preferences.user_id self = IdStr "42".
Proof.
  destruct (init_hydrates_from_row (py := runtime.builtins)
              translator.get_available_languages
              sample_AVAILABLE_AUDIO_LANGUAGES sample_VOICE_TYPES reachable
              (IdStr "42") empty_world eq_refl eq_refl)
    as (w' & self & r & Hrun & Hf & Hu & _).
  exists w', self, r. split; [exact Hrun |]. split; [exact Hf | exact Hu].
Defined.

(** * Properties of the delegate engines *)

Ltac host_unfold :=
  unfold host.htry, host.hbind, host.call, host.logger, host.os_path_exists,
    host.hret.

(** Brings a trace into the form [tr ++ events]. *)
Ltac trace_norm := repeat rewrite <- app_assoc; cbn [app].

(** Case analysis on the answers of the host, outermost call first. *)
Ltac host_cases :=
  repeat
    (host_unfold; cbn beta iota zeta;
     match goal with
     | |- context [match host.answer ?h0 ?X ?c ?t with
                   | Returns _ => _
                   | Raises _ => _
                   end] =>
         destruct (host.answer h0 X c t) as [? | ?] eqn:?
     end).

Section TranslateText.

Context {py : Builtins}.
Variable h : host.Host.

Lemma no_calls_nil : no_calls [].
Proof. constructor. Qed.

(** X12.  [translate_text] hands its text back without calling the
    translator when the text or the target language is empty, and when
    the source language is given (not "auto") and equals the target. *)
Theorem translate_text_identity_cases (text target source : string)
    (tr : list host.Event) :
  text = EmptyString \/ target = EmptyString \/
  (source <> "auto" /\ source = target) ->
  exists evs,
    translator_text.translate_text h text target source tr
    = ((tr ++ evs)%list, Returns text) /\
    no_calls evs.
Proof.
  intros Hcase. unfold translator_text.translate_text.
  destruct (String.eqb_spec text EmptyString) as [Ht | Ht].
  { exists []. rewrite app_nil_r. split; [reflexivity | constructor]. }
  destruct (String.eqb_spec target EmptyString) as [Hg | Hg].
  { exists []. rewrite app_nil_r. split; [reflexivity | constructor]. }
  destruct Hcase as [Hc | [Hc | [Hne Heq]]]; try contradiction.
  apply String.eqb_neq in Hne. rewrite Hne. subst target.
  rewrite String.eqb_refl. cbn [orb negb andb]. host_unfold.
  eexists. split; [reflexivity |]. repeat constructor.
Qed.

(** X13.  [translate_text] never raises.  Outside the identity cases it
    returns what the translator answers when the translator can be built
    and translates; when building it or translating raises, it returns
    the text it was given. *)
Theorem translate_text_never_raises (text target source : string)
    (tr : list host.Event) :
  exists evs res,
    translator_text.translate_text h text target source tr
    = ((tr ++ evs)%list, Returns res) /\
    (forall e,
       host.answer h unit (host.GoogleTranslator source target) tr
       = Raises e -> res = text) /\
    (forall e,
       host.answer h string (host.translator_translate source target text)
         (tr ++ [host.Called (host.GoogleTranslator source target)])
       = Raises e -> res = text) /\
    (forall t,
       text <> EmptyString -> target <> EmptyString ->
       source = "auto" \/ source <> target ->
       host.answer h unit (host.GoogleTranslator source target) tr
       = Returns tt ->
       host.answer h string (host.translator_translate source target text)
         (tr ++ [host.Called (host.GoogleTranslator source target)])
       = Returns t ->
       res = t).
Proof.
  destruct (String.eqb_spec text EmptyString) as [Ht | Ht];
    [| destruct (String.eqb_spec target EmptyString) as [Hg | Hg];
       [| destruct (String.eqb_spec source "auto") as [Ha | Ha];
          [| destruct (String.eqb_spec source target) as [Hs | Hs]]]].
  1, 2, 4:
    (destruct (translate_text_identity_cases text target source tr)
       as (evs & Hrun & _); [tauto |];
     exists evs, text; split; [exact Hrun |];
     split; [reflexivity |]; split; [reflexivity |];
     intros t H1 H2 H3; exfalso; tauto).
  all: unfold translator_text.translate_text;
    apply String.eqb_neq in Ht, Hg; rewrite Ht, Hg;
    try (apply String.eqb_neq in Ha; rewrite Ha);
    try (subst source; cbn [String.eqb Ascii.eqb Bool.eqb]);
    try (apply String.eqb_neq in Hs; rewrite Hs);
    cbn [orb negb andb]; host_unfold;
    destruct (host.answer h unit (host.GoogleTranslator _ target) tr)
      as [[] | e1] eqn:H1;
    [destruct (host.answer h string
                 (host.translator_translate _ target text) _)
       as [t | e2] eqn:H2 |];
    trace_norm; do 2 eexists; (split; [reflexivity |]);
    repeat split; intros; congruence.
Qed.

End TranslateText.

Lemma translate_text_identity_cases_witness :
  exists evs,
    translator_text.translate_text (py := runtime.builtins) hosts.ok
      "hello" "en" "en" []
    = (([] ++ evs)%list, Returns "hello") /\
    no_calls evs.
Proof.
  apply (translate_text_identity_cases (py := runtime.builtins) hosts.ok
           "hello" "en" "en" []).
  right. right. split; [discriminate | reflexivity].
Defined.

Section TextToSpeech.

Context {py : Builtins}.
Variable h : host.Host.

Ltac case_str x s :=
  destruct (String.eqb_spec x s) as [? | ?];
  [subst x; cbn [String.eqb Ascii.eqb Bool.eqb existsb orb] |].

(** The two assignments to [slow_speed] and [tld_domain], as a table. *)
Lemma voice_settings_table (language voice_type : string)
    (s1 slow : bool) (t1 tld : string) :
  (if String.eqb voice_type "slow" then (true, "com")
   else if String.eqb voice_type "clear"
   then (false,
         if String.eqb language "ru" then "ru"
         else if str_in language ["en"; "fr"; "es"; "it"; "pt"]
         then "co.uk" else "com")
   else if String.eqb voice_type "emotional"
   then (false, if str_in language ["es"; "it"; "fr"] then "ca" else "com")
   else (false, "com")) = (s1, t1) ->
  (if str_in language ["ja"; "zh-CN"; "ko"]
   then (if str_in voice_type ["slow"; "clear"] then true else s1, "com")
   else (s1, t1)) = (slow, tld) ->
  (slow = true <->
   voice_type = "slow" \/
   (voice_type = "clear" /\ In language ["ja"; "zh-CN"; "ko"])) /\
  (tld = "ru" <-> voice_type = "clear" /\ language = "ru") /\
  (tld = "co.uk" <->
   voice_type = "clear" /\ In language ["en"; "fr"; "es"; "it"; "pt"]) /\
  (tld = "ca" <->
   voice_type = "emotional" /\ In language ["es"; "it"; "fr"]) /\
  (tld = "com" \/ tld = "ru" \/ tld = "co.uk" \/ tld = "ca").
Proof.
  unfold str_in. cbn [existsb].
  case_str voice_type "slow";
    [| case_str voice_type "clear";
       [| case_str voice_type "emotional"]];
    (case_str language "en";
     [| case_str language "fr";
        [| case_str language "es";
           [| case_str language "it";
              [| case_str language "pt";
                 [| case_str language "ru";
                    [| case_str language "ja";
                       [| case_str language "zh-CN";
                          [| case_str language "ko"]]]]]]]]);
    cbn [orb]; intros [= <- <-] [= <- <-];
    repeat split; cbn [In];
    intuition (try discriminate; try congruence).
Qed.

(** Names the two pairs that [text_to_speech] computes. *)
Ltac voice_pairs s1 t1 slow tld E1 E2 :=
  destruct (if String.eqb _ "slow" then _ else _) as [s1 t1] eqn:E1;
  destruct (if str_in _ ["ja"; "zh-CN"; "ko"] then _ else _)
    as [slow tld] eqn:E2.

(** X14.  How [text_to_speech] sets up the synthesis.  For a non-empty
    text, once the temporary file exists, the next call builds [gTTS]
    with the given text and language, and with [slow] and [tld] as in
    this table: [slow] is set exactly for the voice type "slow" and for
    "clear" with Japanese, Chinese or Korean; [tld] is "ru" exactly for
    "clear" with Russian, "co.uk" exactly for "clear" with en, fr, es, it
    or pt, "ca" exactly for "emotional" with es, it or fr, and "com"
    otherwise. *)
Theorem text_to_speech_voice_settings (text language voice_type : string)
    (tr : list host.Event) (p : string) :
  text <> EmptyString ->
  host.answer h string (host.NamedTemporaryFile ".mp3") tr = Returns p ->
  host.answer h unit (host.temp_file_close p)
    (tr ++ [host.Called (host.NamedTemporaryFile ".mp3")]) = Returns tt ->
  exists slow tld rest o,
    text_to_speech_py.text_to_speech h text language voice_type tr
    = ((tr ++
        [host.Called (host.NamedTemporaryFile ".mp3");
         host.Called (host.temp_file_close p);
         host.Logged host.INFO
           "Converting text to speech in language: {language}, voice type: {voice_type}";
         host.Called (host.gTTS text language slow tld)] ++ rest)%list,
       o) /\
    (slow = true <->
     voice_type = "slow" \/
     (voice_type = "clear" /\ In language ["ja"; "zh-CN"; "ko"])) /\
    (tld = "ru" <-> voice_type = "clear" /\ language = "ru") /\
    (tld = "co.uk" <->
     voice_type = "clear" /\ In language ["en"; "fr"; "es"; "it"; "pt"]) /\
    (tld = "ca" <->
     voice_type = "emotional" /\ In language ["es"; "it"; "fr"]) /\
    (tld = "com" \/ tld = "ru" \/ tld = "co.uk" \/ tld = "ca").
Proof.
  intros Ht H1 H2. unfold text_to_speech_py.text_to_speech.
  apply String.eqb_neq in Ht. rewrite Ht.
  unfold host.htry at 1. unfold host.hbind at 1. unfold host.call at 1.
  rewrite H1. unfold host.hbind at 1. unfold host.call at 1. rewrite H2.
  unfold host.hbind at 1. unfold host.logger at 1.
  cbn beta iota zeta.
  voice_pairs s1 t1 slow tld E1 E2.
  pose proof (voice_settings_table language voice_type s1 slow t1 tld E1 E2)
    as Htable.
  exists slow, tld.
  host_cases; trace_norm; do 2 eexists; (split; [reflexivity | exact Htable]).
Qed.

(** X15.  What [text_to_speech] returns is the file it wrote last: when
    it returns a path, the last call of the trace saved the speech to
    that path or exported 500 ms of silence to it as mp3.  For an empty
    text it is the silence, and the synthesis is never called. *)
Theorem text_to_speech_returns_written_file (text language voice_type : string)
    (tr tr' : list host.Event) (p : string) :
  text_to_speech_py.text_to_speech h text language voice_type tr
  = (tr', Returns p) ->
  exists evs,
    tr' = (tr ++ evs)%list /\
    (last_event evs = Some (host.Called (host.tts_save p)) \/
     last_event evs = Some (host.Called (host.silence_export 500 p "mp3"))) /\
    (text = EmptyString ->
     last_event evs = Some (host.Called (host.silence_export 500 p "mp3")) /\
     Forall (fun e => is_synthesis e = false) evs).
Proof.
  unfold text_to_speech_py.text_to_speech.
  destruct (String.eqb_spec text EmptyString) as [Ht | Ht].
  - host_cases; intros [= <- <-]; trace_norm; eexists;
      (split; [reflexivity |]); (split; [right; reflexivity |]);
      intros _; (split; [reflexivity |]); repeat constructor.
  - voice_pairs s1 t1 slow tld E1 E2.
    host_cases; intros [= <- <-]; trace_norm; eexists;
      (split; [reflexivity |]);
      (split; [first [left; reflexivity | right; reflexivity] |]);
      intros He; contradiction.
Qed.

(** X16.  [text_to_speech] raises only when making the silent file does:
    on a host where creating and closing a temporary file and making and
    exporting silence never raise, it returns a path for every text,
    language and voice type, whatever the synthesis does. *)
Theorem text_to_speech_returns (text language voice_type : string)
    (tr : list host.Event) :
  silence_works h ->
  exists tr' p,
    text_to_speech_py.text_to_speech h text language voice_type tr
    = (tr', Returns p).
Proof.
  intros Hs. unfold text_to_speech_py.text_to_speech.
  destruct (String.eqb text EmptyString);
    [| voice_pairs s1 t1 slow tld E1 E2];
    host_cases;
    try (do 2 eexists; reflexivity);
    exfalso;
    match goal with
    | H : host.answer h string (host.NamedTemporaryFile ?s) ?t = Raises ?e
      |- _ => exact (proj1 (Hs t) s e H)
    | H : host.answer h unit (host.temp_file_close ?n) ?t = Raises ?e
      |- _ => exact (proj1 (proj2 (Hs t)) n e H)
    | H : host.answer h unit (host.AudioSegment_silent ?d) ?t = Raises ?e
      |- _ => exact (proj1 (proj2 (proj2 (Hs t))) d e H)
    | H : host.answer h unit (host.silence_export ?d ?q ?f) ?t = Raises ?e
      |- _ => exact (proj2 (proj2 (proj2 (Hs t))) d q f e H)
    end.
Qed.

End TextToSpeech.

Lemma silence_works_ok {py : Builtins} : silence_works hosts.ok.
Proof. intros tr. repeat split; intros; discriminate. Qed.

Lemma translate_text_never_raises_witness :
  exists evs res,
    translator_text.translate_text (py := runtime.builtins) hosts.ok
      "hello" "fr" "auto" []
    = (([] ++ evs)%list, Returns res) /\
    res = "fr:hello".
Proof.
  destruct (translate_text_never_raises (py := runtime.builtins) hosts.ok
              "hello" "fr" "auto" [])
    as (evs & res & Hrun & _ & _ & Hres).
  exists evs, res. split; [exact Hrun |].
  apply Hres;
    [discriminate | discriminate | left; reflexivity | reflexivity
    | reflexivity].
Defined.

Lemma text_to_speech_voice_settings_witness :
  exists slow tld rest o,
    text_to_speech_py.text_to_speech (py := runtime.builtins) hosts.ok
      "privet" "ru" "clear" []
    = (([] ++
        [host.Called (host.NamedTemporaryFile ".mp3");
         host.Called (host.temp_file_close "/tmp/tmp0.mp3");
         host.Logged host.INFO
           "Converting text to speech in language: {language}, voice type: {voice_type}";
         host.Called (host.gTTS "privet" "ru" slow tld)] ++ rest)%list,
       o) /\
    tld = "ru".
Proof.
  assert (Ht : "privet" <> EmptyString) by discriminate.
  destruct (text_to_speech_voice_settings (py := runtime.builtins) hosts.ok
              "privet" "ru" "clear" [] "/tmp/tmp0.mp3" Ht eq_refl eq_refl)
    as (slow & tld & rest & o & Hrun & _ & Hru & _).
  exists slow, tld, rest, o. split; [exact Hrun |].
  apply Hru. split; reflexivity.
Defined.

Lemma text_to_speech_returns_written_file_witness :
  exists tr' p evs,
    text_to_speech_py.text_to_speech (py := runtime.builtins) hosts.bare
      "hello" "en" "normal" [] = (tr', Returns p) /\
    tr' = ([] ++ evs)%list /\
    (last_event evs = Some (host.Called (host.tts_save p)) \/
     last_event evs = Some (host.Called (host.silence_export 500 p "mp3"))).
Proof.
  assert (Hrun : exists tr' p,
             text_to_speech_py.text_to_speech (py := runtime.builtins)
               hosts.bare "hello" "en" "normal" [] = (tr', Returns p))
    by (do 2 eexists; reflexivity).
  destruct Hrun as (tr' & p & Hrun).
  destruct (text_to_speech_returns_written_file (py := runtime.builtins)
              hosts.bare "hello" "en" "normal" [] tr' p Hrun)
    as (evs & Htr & Hlast & _).
  exists tr', p, evs. split; [exact Hrun |]. split; [exact Htr | exact Hlast].
Defined.

Lemma text_to_speech_returns_witness :
  exists tr' p,
    text_to_speech_py.text_to_speech (py := runtime.builtins) hosts.ok
      "hello" "en" "slow" [] = (tr', Returns p).
Proof.
  exact (text_to_speech_returns (py := runtime.builtins) hosts.ok
           "hello" "en" "slow" [] silence_works_ok).
Defined.

Section AudioAndImages.

Context {py : Builtins}.
Variable h : host.Host.


(** X18.  [extract_text_from_image] never raises.  When the image file
    does not exist it returns the empty string without opening anything;
    otherwise it returns the empty string or the stripped text that the
    recognition answered. *)
Theorem extract_text_from_image_outcome (image_path : string)
    (tr : list host.Event) :
  exists evs res,
    ocr.extract_text_from_image h image_path tr
    = ((tr ++ evs)%list, Returns res) /\
    (host.path_exists h image_path tr = false ->
     res = EmptyString /\ no_calls evs) /\
    (res = EmptyString \/
     exists t tr1,
       host.answer h string (host.image_to_string image_path) tr1
       = Returns t /\
       res = host.strip h t).
Proof.
  unfold ocr.extract_text_from_image. host_unfold. cbn beta iota zeta.
  destruct (host.path_exists h image_path tr) eqn:Hex; cbn [negb].
  - host_cases; trace_norm; do 2 eexists; (split; [reflexivity |]);
      (split; [intros Hd; discriminate Hd |]);
      first [left; reflexivity
            | right; do 2 eexists; split; [eassumption | reflexivity]].
  - trace_norm. do 2 eexists. split; [reflexivity |].
    split; [| left; reflexivity].
    intros _. split; [reflexivity | repeat constructor].
Qed.

(** X19.  [convert_to_wav] never raises.  It returns [None] or the name
    of the temporary ".wav" file it created, and it returns the name
    only after exporting the audio to that file with pydub or after
    running ffmpeg with that file as output. *)
Theorem convert_to_wav_outcome (input_file : string) (tr : list host.Event) :
  exists evs res,
    speech_to_text_py.convert_to_wav h input_file tr
    = ((tr ++ evs)%list, Returns res) /\
    (forall name,
       res = Some name ->
       host.answer h string (host.NamedTemporaryFile ".wav")
         (tr ++ [host.Called host.import_pydub]) = Returns name /\
       exists before after,
         evs = (before ++ after)%list /\
         (after
          = [host.Called (host.audio_export input_file name "wav");
             host.Logged host.INFO
               "Converted audio to WAV format using pydub"] \/
          after
          = [host.Called
               (host.subprocess_call
                  ["ffmpeg"; "-i"; input_file; "-acodec"; "pcm_s16le";
                   "-ar"; "16000"; "-ac"; "1"; name; "-y"]);
             host.Logged host.INFO
               "Converted audio to WAV format using ffmpeg"])).
Proof.
  unfold speech_to_text_py.convert_to_wav, speech_to_text_py.convert_failed.
  host_cases;
    repeat match goal with
      | |- context [String.eqb ?a EmptyString] =>
          destruct (String.eqb a EmptyString)
      | |- context [host.path_exists ?h0 ?p ?t] =>
          destruct (host.path_exists h0 p t)
      | _ => progress host_cases
      end;
    cbn beta iota zeta; trace_norm; do 2 eexists;
    (split; [reflexivity |]);
    intros name Hn; try discriminate Hn;
    injection Hn as <-; (split; [reflexivity |]);
    match goal with
    | |- exists before after, ?l = _ /\ _ =>
        exists (removelast (removelast l)), (skipn (length l - 2) l)
    end;
    (split; [reflexivity |]);
    first [left; reflexivity | right; reflexivity].
Qed.

End AudioAndImages.

Section Ffmpeg.

Context {py : Builtins}.
Variable h : host.Host.

(** X20.  [convert_to_wav] does not look at the exit code of ffmpeg: when
    pydub cannot load the input and the ffmpeg process runs, the name of
    the temporary file is returned for every exit code, zero or not. *)
Theorem convert_to_wav_ignores_exit_code (input_file name : string)
    (code : Z) (e : Exception) (tr : list host.Event) :
  host.answer h unit host.import_pydub tr = Returns tt ->
  host.answer h string (host.NamedTemporaryFile ".wav")
    (tr ++ [host.Called host.import_pydub]) = Returns name ->
  host.answer h unit (host.temp_file_close name)
    (tr ++ [host.Called host.import_pydub;
            host.Called (host.NamedTemporaryFile ".wav")]) = Returns tt ->
  host.answer h Z (host.AudioSegment_from_file input_file)
    (tr ++ [host.Called host.import_pydub;
            host.Called (host.NamedTemporaryFile ".wav");
            host.Called (host.temp_file_close name)]) = Raises e ->
  host.answer h Z
    (host.subprocess_call
       ["ffmpeg"; "-i"; input_file; "-acodec"; "pcm_s16le"; "-ar"; "16000";
        "-ac"; "1"; name; "-y"])
    (tr ++ [host.Called host.import_pydub;
            host.Called (host.NamedTemporaryFile ".wav");
            host.Called (host.temp_file_close name);
            host.Called (host.AudioSegment_from_file input_file);
            host.Logged host.WARNING
              "Failed to convert audio with pydub, trying ffmpeg: {pydub_err}"])
  = Returns code ->
  exists evs,
    speech_to_text_py.convert_to_wav h input_file tr
    = ((tr ++ evs)%list, Returns (Some name)) /\
    last_event evs
    = Some (host.Logged host.INFO
              "Converted audio to WAV format using ffmpeg").
Proof.
  intros H1 H2 H3 H4 H5.
  unfold speech_to_text_py.convert_to_wav.
  host_unfold. cbn beta iota zeta. rewrite H1.
  cbn beta iota zeta. rewrite H2.
  cbn beta iota zeta. trace_norm. rewrite H3.
  cbn beta iota zeta. trace_norm. rewrite H4.
  cbn beta iota zeta. trace_norm. rewrite H5.
  cbn beta iota zeta. trace_norm.
  eexists. split; reflexivity.
Qed.

End Ffmpeg.

Lemma convert_to_wav_ignores_exit_code_witness :
  exists evs,
    speech_to_text_py.convert_to_wav (py := runtime.builtins) hosts.bare
      "voice.ogg" []
    = (([] ++ evs)%list, Returns (Some "/tmp/tmp1.wav")) /\
    last_event evs
    = Some (host.Logged host.INFO
              "Converted audio to WAV format using ffmpeg").
Proof.
  exact (convert_to_wav_ignores_exit_code (py := runtime.builtins)
           hosts.bare "voice.ogg" "/tmp/tmp1.wav" 1 ValueError []
           eq_refl eq_refl eq_refl eq_refl eq_refl).
Defined.
